(** * IEC104 connector scaffold of thingsboard-gateway: model and properties

    The development embeds the two [iecConnector] classes of the
    repository,

    - [thingsboard_gateway/extensions/iec104/iec104_connector.py]
      (a [Connector] that is also a [threading.Thread]), and
    - [thingsboard_gateway/connectors/iec104/iec104_connector.py]
      (a plain [Connector]),

    as state-passing programs over records that have the instance
    attributes of the classes as fields, and states the properties of the
    specification over them.  The frame codec and the command dispatcher of
    the specification have no code in the repository; they are modelled
    from the specification in the modules [FrameCodec] and
    [CommandDispatcher]. *)

From Stdlib Require Import ZArith String Bool Lia.
From stdpp Require Import base option gmap strings list.

Set Warnings "-register-all".
#[local] Open Scope string_scope.
#[local] Open Scope Z_scope.

(** ** Python values *)

(** The values that reach the connector: the JSON-like content of a
    configuration dictionary or of a request coming from the platform.
    Non-integer numbers are left out. *)
Inductive pyval : Type :=
  | PNone
  | PBool (b : bool)
  | PInt (z : Z)
  | PStr (s : string)
  | PList (l : list pyval)
  | PDict (d : gmap string pyval).

(** Truth value of an object, as tested by [if request_id:]. *)
Definition truthy (v : pyval) : bool :=
  match v with
  | PNone => false
  | PBool b => b
  | PInt z => negb (z =? 0)
  | PStr s => negb (String.eqb s "")
  | PList l => match l with [] => false | _ :: _ => true end
  | PDict d => negb (bool_decide (d = ∅))
  end.

(** [d.get(key, default)] and [d.get(key)] on a dictionary. *)
Definition dict_get_default (d : gmap string pyval) (key : string)
    (dflt : pyval) : pyval :=
  default dflt (d !! key).

Definition dict_get (d : gmap string pyval) (key : string) : pyval :=
  dict_get_default d key PNone.

(** An f-string is kept as its sequence of literal and interpolated
    parts; [str()] of the interpolated values is not computed. *)
Inductive fpart : Type :=
  | FLit (s : string)
  | FVal (v : pyval).

(** Exceptions that the modelled statements can raise. *)
Inductive PyExn : Type :=
  | RuntimeError (msg : string)
  | TypeError
  | ValueError
  | OverflowError.

(** The largest number of whole seconds that [time.sleep] takes: it turns
    its argument into a 64-bit count of nanoseconds, before it looks at
    the sign. *)
Definition SLEEP_MAX : Z := 9223372036.

(** ** Logger and gateway, seen from the connector *)

Inductive LogLevel : Type := DEBUG | INFO | WARNING.

(** A call [log.<level>(fmt, *args)]. *)
Record LogRecord : Type := mkLogRecord {
  lr_level : LogLevel;
  lr_fmt : string;
  lr_args : list pyval
}.

(** The logger returned by [init_logger] (or [gateway.get_logger]): the
    arguments it was created with, the calls made on it in order (most
    recent last), and whether [stop()] was called. *)
Record Logger : Type := mkLogger {
  logger_args : list pyval;
  records : list LogRecord;
  logger_stopped : bool
}.

Definition logger_emit (r : LogRecord) (l : Logger) : Logger :=
  mkLogger (logger_args l) (records l ++ [r]) (logger_stopped l).

Definition logger_stop (l : Logger) : Logger :=
  mkLogger (logger_args l) (records l) true.

(** The payload [{"status": ..., "message": f"..."}] answered to an RPC. *)
Record RpcPayload : Type := mkRpcPayload {
  status : string;
  message : list fpart
}.

(** A call [gateway.send_rpc_reply(device_name, request_id, payload)]. *)
Record RpcReply : Type := mkRpcReply {
  reply_device : pyval;
  reply_id : pyval;
  reply_payload : RpcPayload
}.

(** The gateway service is an external collaborator: only the replies
    sent through it are recorded (most recent last). *)
Record Gateway : Type := mkGateway {
  rpc_replies : list RpcReply
}.

(** ** Statements with state and exceptions *)

Inductive result (A : Type) : Type :=
  | Ok (a : A)
  | Raise (e : PyExn).
Arguments Ok {A} a.
Arguments Raise {A} e.

(** A method body over an instance of type [St]: it returns or raises, and
    the attribute updates made before a [raise] stay. *)
Definition M (St A : Type) : Type := St → result A * St.

Definition ret {St A} (a : A) : M St A := λ s, (Ok a, s).

Definition bind {St A B} (m : M St A) (k : A → M St B) : M St B :=
  λ s, match m s with
       | (Ok a, s') => k a s'
       | (Raise e, s') => (Raise e, s')
       end.

Definition raise {St A} (e : PyExn) : M St A := λ s, (Raise e, s).
Definition gets {St A} (f : St → A) : M St A := λ s, (Ok (f s), s).
Definition modify {St} (f : St → St) : M St unit := λ s, (Ok tt, f s).

Declare Scope py_scope.
Delimit Scope py_scope with py.
Notation "x <- m ;; k" := (bind m (λ x, k))
  (at level 100, m at next level, right associativity) : py_scope.
Notation "m ;; k" := (bind m (λ _, k))
  (at level 100, right associativity) : py_scope.

(** State reached by a method call, whatever its result. *)
Definition after {St A} (m : M St A) (s : St) : St := snd (m s).

(** The names imported from [thingsboard_gateway.gateway.constants]; the
    module is not part of the sources at hand, so the connector is
    parameterised by their values. *)
Record GatewayConstants : Type := mkConstants {
  DEVICE_SECTION_PARAMETER : string;
  DATA_PARAMETER : string;
  RPC_METHOD_PARAMETER : string;
  RPC_PARAMS_PARAMETER : string
}.

(** ** The threaded connector (extensions/iec104) *)

Module Extensions.

(** *** The instance *)

(** Where [run()] stands when the worker thread is not executing: before
    its first statement, or blocked in one of its two [time.sleep] calls
    until the given time. *)
Inductive RunPoint : Type :=
  | at_entry
  | connect_sleep (until : Z)
  | poll_sleep (until : Z).

(** The [threading.Thread] part of the instance. *)
Inductive ThreadState : Type :=
  | Initial
  | Alive (p : RunPoint)
  | Finished (exc : option PyExn).

(** The attributes of an instance, with the state of its thread and the
    time in seconds since the instance was constructed. *)
Record iecConnector : Type := mkConnector {
  __gateway : Gateway;
  _config : gmap string pyval;
  _connector_name : string;
  log : Logger;
  _connected : bool;
  _stopped : bool;
  daemon : bool;
  thread : ThreadState;
  now : Z
}.

Definition set_gateway (g : Gateway) (s : iecConnector) : iecConnector :=
  mkConnector g (_config s) (_connector_name s) (log s) (_connected s)
              (_stopped s) (daemon s) (thread s) (now s).

Definition set_log (l : Logger) (s : iecConnector) : iecConnector :=
  mkConnector (__gateway s) (_config s) (_connector_name s) l (_connected s)
              (_stopped s) (daemon s) (thread s) (now s).

Definition set_connected (b : bool) (s : iecConnector) : iecConnector :=
  mkConnector (__gateway s) (_config s) (_connector_name s) (log s) b
              (_stopped s) (daemon s) (thread s) (now s).

Definition set_stopped (b : bool) (s : iecConnector) : iecConnector :=
  mkConnector (__gateway s) (_config s) (_connector_name s) (log s)
              (_connected s) b (daemon s) (thread s) (now s).

Definition set_thread (t : ThreadState) (s : iecConnector) : iecConnector :=
  mkConnector (__gateway s) (_config s) (_connector_name s) (log s)
              (_connected s) (_stopped s) (daemon s) t (now s).

Definition set_now (t : Z) (s : iecConnector) : iecConnector :=
  mkConnector (__gateway s) (_config s) (_connector_name s) (log s)
              (_connected s) (_stopped s) (daemon s) (thread s) t.

Definition Stmt : Type := M iecConnector unit.

Definition emit (r : LogRecord) (s : iecConnector) : iecConnector :=
  set_log (logger_emit r (log s)) s.

Definition log_call (lvl : LogLevel) (fmt : string) (args : list pyval)
    : Stmt :=
  modify (emit (mkLogRecord lvl fmt args)).

Definition log_debug := log_call DEBUG.
Definition log_info := log_call INFO.
Definition log_warning := log_call WARNING.
Definition stop_log (s : iecConnector) : iecConnector :=
  set_log (logger_stop (log s)) s.

Definition log_stop : Stmt := modify stop_log.

(** [__init__(gateway, config, connector_name)]. *)
Definition __init__ (gateway : Gateway) (config : gmap string pyval)
    (connector_name : string) : iecConnector :=
  let logger :=
    mkLogger [PStr connector_name;
              dict_get_default config "logLevel" (PStr "INFO");
              dict_get_default config "enableRemoteLogging" (PBool false);
              PBool true] [] false in
  after (log_debug "Initializing iecConnector: %s" [PStr connector_name])
    (mkConnector gateway config connector_name logger
                 false false true Initial 0).

Definition get_id (s : iecConnector) : string := _connector_name s.
Definition get_name (s : iecConnector) : string := _connector_name s.
Definition get_type (s : iecConnector) : string := "IEC104".
Definition get_config (s : iecConnector) : gmap string pyval := _config s.
Definition is_connected (s : iecConnector) : bool := _connected s.
Definition is_stopped (s : iecConnector) : bool := _stopped s.

(** *** The worker thread *)

(** [Thread.is_alive()]: from [start()] until [run()] ends. *)
Definition is_alive (s : iecConnector) : bool :=
  match thread s with Alive _ => true | _ => false end.

(** [time.sleep(secs)] in the worker: the thread blocks until [now + secs]
    and will go on at the point [k].  A number of seconds that does not
    fit the clock of the interpreter is an [OverflowError], a negative one
    that fits is a [ValueError], a value that is not a number is a
    [TypeError]. *)
Definition time_sleep (secs : pyval) (k : Z → RunPoint) : Stmt :=
  match secs with
  | PInt z =>
      if (z <? - SLEEP_MAX) || (SLEEP_MAX <? z) then raise OverflowError
      else if z <? 0 then raise ValueError
      else modify (λ s, set_thread (Alive (k (now s + z))) s)
  | PBool b => modify (λ s, set_thread (Alive (k (now s + Z.b2z b))) s)
  | _ => raise TypeError
  end.

(** [run()], cut at its suspension points: from its first statement to
    the simulated connection delay, *)
Definition run_begin : Stmt :=
  (name <- gets _connector_name ;;
   log_info "IEC connector thread '%s' has started its main loop."
            [PStr name] ;;
   log_info "Simulating connection to IEC device..." [] ;;
   time_sleep (PInt 1) connect_sleep)%py.

(** the [while not self._stopped] loop, from its test to the sleep that
    ends an iteration or to the end of [run()], *)
Definition run_loop : Stmt :=
  (stopped <- gets _stopped ;;
   name <- gets _connector_name ;;
   if negb stopped then
     connected <- gets _connected ;;
     log_debug "IEC connector '%s' is running. Connected: %s"
               [PStr name; PBool connected] ;;
     config <- gets _config ;;
     time_sleep (dict_get_default config "pollingInterval" (PInt 5))
                poll_sleep
   else
     log_info "IEC connector thread '%s' main loop finished." [PStr name] ;;
     modify (set_thread (Finished None)))%py.

(** and from the end of the connection delay into the loop. *)
Definition run_connected : Stmt :=
  (modify (set_connected true) ;;
   log_info "Simulated connection successful. IEC connector is now marked as 'connected'." [] ;;
   run_loop)%py.

Definition run (p : RunPoint) : Stmt :=
  match p with
  | at_entry => run_begin
  | connect_sleep _ => run_connected
  | poll_sleep _ => run_loop
  end.

(** The time at which a suspended [run()] can go on. *)
Definition wake_time (p : RunPoint) (t : Z) : Z :=
  match p with
  | at_entry => t
  | connect_sleep until | poll_sleep until => Z.max until t
  end.

(** One turn of the worker: if its sleep is over, [run()] goes on to its
    next suspension point; an exception that escapes [run()] ends the
    thread. *)
Definition worker_step (s : iecConnector) : iecConnector :=
  match thread s with
  | Alive p =>
      if wake_time p (now s) <=? now s then
        match run p s with
        | (Ok _, s') => s'
        | (Raise e, s') => set_thread (Finished (Some e)) s'
        end
      else s
  | _ => s
  end.

(** Time passes. *)
Definition advance_to (t : Z) (s : iecConnector) : iecConnector :=
  set_now (Z.max (now s) t) s.

Definition tick (d : N) (s : iecConnector) : iecConnector :=
  advance_to (now s + Z.of_N d) s.

(** [Thread.start()]. *)
Definition start : Stmt :=
  (t <- gets thread ;;
   match t with
   | Initial => modify (set_thread (Alive at_entry))
   | _ => raise (RuntimeError "threads can only be started once")
   end)%py.

(** The wait of [Thread.join(timeout)] up to [deadline]: while the thread
    is alive and its sleep ends before the deadline, time moves to the end
    of that sleep and the worker takes a turn; [turns] bounds the turns the
    scheduler gives the worker before the deadline. *)
Fixpoint join_wait (deadline : Z) (turns : nat) (s : iecConnector)
    : iecConnector :=
  match thread s with
  | Alive p =>
      match turns with
      | S turns' =>
          if wake_time p (now s) <=? deadline then
            join_wait deadline turns'
                      (worker_step (advance_to (wake_time p (now s)) s))
          else advance_to deadline s
      | O => advance_to deadline s
      end
  | _ => s
  end.

Definition join (timeout : Z) (turns : nat) : Stmt :=
  (t <- gets thread ;;
   match t with
   | Initial => raise (RuntimeError "cannot join thread before it is started")
   | _ => modify (λ s, join_wait (now s + timeout) turns s)
   end)%py.

(** *** The methods called by the gateway *)

Definition open : Stmt :=
  (log_info "Opening IEC connector and starting its thread." [] ;;
   modify (set_stopped false) ;;
   start ;;
   log_debug "IEC connector thread started successfully." [])%py.

(** [close()]; [turns] is the scheduling of the worker during the join. *)
Definition close (turns : nat) : Stmt :=
  (log_info "Closing IEC connector and stopping its thread." [] ;;
   modify (set_stopped true) ;;
   modify (set_connected false) ;;
   alive <- gets is_alive ;;
   (if alive then
      join 5 turns ;;
      still_alive <- gets is_alive ;;
      if still_alive then
        log_warning "IEC connector thread did not terminate gracefully within 5 seconds." []
      else ret tt
    else ret tt) ;;
   log_info "IEC connector thread stopped and resources cleaned." [] ;;
   log_stop)%py.

Section Requests.

Variable K : GatewayConstants.

Definition send_rpc_reply (device_name request_id : pyval)
    (payload : RpcPayload) : Stmt :=
  modify (λ s, set_gateway
    (mkGateway (rpc_replies (__gateway s)
                ++ [mkRpcReply device_name request_id payload])) s).

Definition server_side_rpc_handler (content : gmap string pyval)
    : M iecConnector RpcPayload :=
  (log_info "Received server-side RPC request: %s" [PDict content] ;;
   let device_name := dict_get content (DEVICE_SECTION_PARAMETER K) in
   let request_id := dict_get content "id" in
   let method := dict_get content (RPC_METHOD_PARAMETER K) in
   let params := dict_get content (RPC_PARAMS_PARAMETER K) in
   log_debug "RPC details: device_name=%s, method=%s, params=%s"
             [device_name; method; params] ;;
   let response_payload :=
     mkRpcPayload "success"
       [FLit "RPC method '"; FVal method; FLit "' for device '";
        FVal device_name; FLit "' processed (simulated)."] in
   (if truthy request_id then
      send_rpc_reply device_name request_id response_payload
    else ret tt) ;;
   ret response_payload)%py.

Definition on_attributes_update (content : gmap string pyval) : Stmt :=
  (log_info "Received attributes update from ThingsBoard: %s"
            [PDict content] ;;
   let device_name := dict_get content (DEVICE_SECTION_PARAMETER K) in
   let attributes := dict_get content (DATA_PARAMETER K) in
   log_debug "Attribute update details: device_name=%s, attributes=%s"
             [device_name; attributes] ;;
   log_info "Simulating attribute update for device '%s' with data: %s"
            [device_name; attributes])%py.

(** *** Runs of a connector *)

(** What can happen to an instance: a call of the gateway, a turn of the
    worker thread, or time passing.  A call is one step: the worker runs
    between calls and during the wait of [close()], not between two
    statements of a method. *)
Inductive Event : Type :=
  | EvOpen
  | EvClose (turns : nat)
  | EvRpc (content : gmap string pyval)
  | EvAttributes (content : gmap string pyval)
  | EvWorker
  | EvTick (d : N).

Definition step (ev : Event) (s : iecConnector) : iecConnector :=
  match ev with
  | EvOpen => after open s
  | EvClose turns => after (close turns) s
  | EvRpc content => after (server_side_rpc_handler content) s
  | EvAttributes content => after (on_attributes_update content) s
  | EvWorker => worker_step s
  | EvTick d => tick d s
  end.

Fixpoint exec (sch : list Event) (s : iecConnector) : iecConnector :=
  match sch with
  | [] => s
  | ev :: sch' => exec sch' (step ev s)
  end.

End Requests.

(** The state in which the loop is entered after the connection delay. *)
Definition connected_state (s : iecConnector) : iecConnector :=
  emit (mkLogRecord INFO
          "Simulated connection successful. IEC connector is now marked as 'connected'."
          [])
       (set_connected true s).

(** The state in which [close()] tests [is_alive()]. *)
Definition closing_state (s : iecConnector) : iecConnector :=
  set_connected false
    (set_stopped true
       (emit (mkLogRecord INFO
                "Closing IEC connector and stopping its thread." []) s)).

(** The worker has not come to the end of its connection delay. *)
Definition connecting (s : iecConnector) : Prop :=
  thread s = Alive at_entry
  ∨ ∃ until, thread s = Alive (connect_sleep until) ∧ until ≤ now s + 1.

(** The worker is not in the part of [run()] that comes before the
    connector is marked as connected. *)
Definition past_connection (s : iecConnector) : bool :=
  match thread s with
  | Alive at_entry | Alive (connect_sleep _) => false
  | _ => true
  end.

(** Iterations of the loop of [run()] begun so far: each one starts with
    the debug record of the loop body. *)
Definition is_loop_record (r : LogRecord) : bool :=
  match lr_level r with
  | DEBUG =>
      String.eqb (lr_fmt r) "IEC connector '%s' is running. Connected: %s"
  | _ => false
  end.

Definition loop_iterations (s : iecConnector) : nat :=
  length (filter (λ r, is_loop_record r = true) (records (log s))).

End Extensions.

(** ** The plain connector (connectors/iec104) *)

Module Connectors.

Record iecConnector : Type := mkConnector {
  _gateway : Gateway;
  _config : gmap string pyval;
  _connector_name : string;
  __log : Logger;
  _connected : bool
}.

Definition set_log (l : Logger) (s : iecConnector) : iecConnector :=
  mkConnector (_gateway s) (_config s) (_connector_name s) l (_connected s).

Definition set_connected (b : bool) (s : iecConnector) : iecConnector :=
  mkConnector (_gateway s) (_config s) (_connector_name s) (__log s) b.

Definition Stmt : Type := M iecConnector unit.

Definition log_info (fmt : string) (args : list pyval) : Stmt :=
  modify (λ s, set_log (logger_emit (mkLogRecord INFO fmt args) (__log s)) s).

(** [__init__(gateway, config, connector_name)]; the logger comes from
    [gateway.get_logger(connector_name)]. *)
Definition __init__ (gateway : Gateway) (config : gmap string pyval)
    (connector_name : string) : iecConnector :=
  after (log_info "初始化我的连接器 Config: %s" [PDict config])
    (mkConnector gateway config connector_name
                 (mkLogger [PStr connector_name] [] false) false).

Definition open : Stmt :=
  (log_info "Simulating connection establishment..." [] ;;
   modify (set_connected true))%py.

Definition close : Stmt :=
  (log_info "Simulating closing connection..." [] ;;
   modify (set_connected false))%py.

Definition get_name (s : iecConnector) : string := _connector_name s.
Definition is_connected (s : iecConnector) : bool := _connected s.

Definition on_attributes_update (content : gmap string pyval) : Stmt :=
  log_info "Received attribute update: %s" [PDict content].

Inductive Event : Type :=
  | EvOpen
  | EvClose
  | EvAttributes (content : gmap string pyval).

Definition step (ev : Event) (s : iecConnector) : iecConnector :=
  match ev with
  | EvOpen => after open s
  | EvClose => after close s
  | EvAttributes content => after (on_attributes_update content) s
  end.

Fixpoint exec (sch : list Event) (s : iecConnector) : iecConnector :=
  match sch with
  | [] => s
  | ev :: sch' => exec sch' (step ev s)
  end.

End Connectors.

(** ** The frame codec of the specification *)

Module FrameCodec.

(** Modelled from the spec: the control functions of a U-format APDU
    (section 3); the repository has no frame codec. *)
Inductive UFunction : Type :=
  | STARTDT_ACT | STARTDT_CON
  | STOPDT_ACT | STOPDT_CON
  | TESTFR_ACT | TESTFR_CON.

(** Modelled from the spec: the APDU of section 3, missing from the
    repository.  An I-format carries the two sequence numbers and one
    ASDU, an S-format the receive sequence number, a U-format a control
    function.  The codec carries the ASDU as its octets; reading them is
    the work of the ASDU translator. *)
Inductive APDU : Type :=
  | IFormat (ssn rsn : Z) (asdu : list Z)
  | SFormat (rsn : Z)
  | UFormat (function : UFunction).

(** Modelled from the spec: the [FrameError] of sections 4.1 and 7. *)
Inductive FrameError : Type := Truncated | Malformed.

(** Modelled from the spec: the result [APDU | FrameError] of [decode]. *)
Inductive Decoded : Type :=
  | Frame (apdu : APDU)
  | Error (e : FrameError).

(** Modelled from the spec: the fixed start byte of section 4.1, with the
    value IEC 60870-5-104 gives it (68 hexadecimal). *)
Definition START_BYTE : Z := 104.

(** Modelled from the spec: the largest value of the length byte. *)
Definition MAX_LENGTH : Z := 253.

(** Modelled from the spec: the control field, four octets in
    IEC 60870-5-104, is the part of the APDU that every format has. *)
Definition CONTROL_LENGTH : Z := 4.

(** Modelled from the spec: a 15-bit sequence number on two octets; the
    low octet holds its seven low bits above a bit 0 that is clear. *)
Definition seq_low (n : Z) : Z := Z.land (Z.shiftl n 1) 255.

(** Modelled from the spec: the high octet of a sequence number. *)
Definition seq_high (n : Z) : Z := Z.land (Z.shiftr n 7) 255.

(** Modelled from the spec: the sequence number read from its octets. *)
Definition seq_of (low high : Z) : Z :=
  Z.lor (Z.shiftr low 1) (Z.shiftl high 7).

(** Modelled from the spec: the first control octet of a U-format; its two
    low bits are set and one bit names the function. *)
Definition u_code (f : UFunction) : Z :=
  match f with
  | STARTDT_ACT => 7 | STARTDT_CON => 11
  | STOPDT_ACT => 19 | STOPDT_CON => 35
  | TESTFR_ACT => 67 | TESTFR_CON => 131
  end.

(** Modelled from the spec: the allowed set of U-format control octets. *)
Definition u_function (c : Z) : option UFunction :=
  if c =? 7 then Some STARTDT_ACT
  else if c =? 11 then Some STARTDT_CON
  else if c =? 19 then Some STOPDT_ACT
  else if c =? 35 then Some STOPDT_CON
  else if c =? 67 then Some TESTFR_ACT
  else if c =? 131 then Some TESTFR_CON
  else None.

(** Modelled from the spec: [encode(APDU) -> bytes] of section 4.1: start
    byte, length byte (the length of the APDU without these two), control
    field, ASDU. *)
Definition encode (apdu : APDU) : list Z :=
  match apdu with
  | IFormat ssn rsn asdu =>
      START_BYTE :: (CONTROL_LENGTH + Z.of_nat (length asdu))
      :: seq_low ssn :: seq_high ssn :: seq_low rsn :: seq_high rsn :: asdu
  | SFormat rsn =>
      [START_BYTE; CONTROL_LENGTH; 1; 0; seq_low rsn; seq_high rsn]
  | UFormat f =>
      [START_BYTE; CONTROL_LENGTH; u_code f; 0; 0; 0]
  end.

(** Modelled from the spec: the format is read from the two low bits of
    the first control octet; control bits that fit no format are
    [Malformed]. *)
Definition decode_control (len c1 c2 c3 c4 : Z) (body : list Z) : Decoded :=
  if Z.land c1 1 =? 0 then
    if Z.land c3 1 =? 0 then
      Frame (IFormat (seq_of c1 c2) (seq_of c3 c4)
               (take (Z.to_nat (len - CONTROL_LENGTH)) body))
    else Error Malformed
  else if Z.land c1 3 =? 1 then
    if (c1 =? 1) && (c2 =? 0) && (Z.land c3 1 =? 0)
       && (len =? CONTROL_LENGTH)
    then Frame (SFormat (seq_of c3 c4))
    else Error Malformed
  else
    match u_function c1 with
    | Some f =>
        if (c2 =? 0) && (c3 =? 0) && (c4 =? 0) && (len =? CONTROL_LENGTH)
        then Frame (UFormat f)
        else Error Malformed
    | None => Error Malformed
    end.

(** Modelled from the spec: [decode(bytes) -> APDU | FrameError] of
    section 4.1: [Truncated] when fewer bytes are there than the length
    byte declares, [Malformed] when the declared length is above the
    maximum or the control field is inconsistent. *)
Definition decode (bytes : list Z) : Decoded :=
  match bytes with
  | start :: len :: rest =>
      if negb (start =? START_BYTE) then Error Malformed
      else if (MAX_LENGTH <? len) || (len <? CONTROL_LENGTH) then
        Error Malformed
      else if Z.of_nat (length rest) <? len then Error Truncated
      else
        match rest with
        | c1 :: c2 :: c3 :: c4 :: body => decode_control len c1 c2 c3 c4 body
        | _ => Error Truncated
        end
  | _ => Error Truncated
  end.

(** Modelled from the spec: an octet. *)
Definition octet (b : Z) : Prop := 0 ≤ b < 256.

(** Modelled from the spec: sequence numbers are 15-bit counters. *)
Definition valid_seq (n : Z) : Prop := 0 ≤ n < 32768.

(** Modelled from the spec: a structurally valid APDU has 15-bit sequence
    numbers and an ASDU of octets that fits the largest length. *)
Definition valid_apdu (apdu : APDU) : Prop :=
  match apdu with
  | IFormat ssn rsn asdu =>
      valid_seq ssn ∧ valid_seq rsn
      ∧ CONTROL_LENGTH + Z.of_nat (length asdu) ≤ MAX_LENGTH
      ∧ Forall octet asdu
  | SFormat rsn => valid_seq rsn
  | UFormat _ => True
  end.

End FrameCodec.

(** ** The command dispatcher of the specification *)

Module CommandDispatcher.

(** Modelled from the spec: the kinds of outbound control requests of
    section 2; the repository has no command dispatcher. *)
Inductive CommandType : Type := SingleCommand | DoubleCommand | Setpoint.

(** Modelled from the spec: the [CommandRequest] of section 3. *)
Record CommandRequest : Type := mkRequest {
  deviceId : string;
  pointAddress : Z;
  commandType : CommandType;
  value : Z;
  qualifier : Z
}.

(** Modelled from the spec: the states of a request in section 4.5. *)
Inductive CommandState : Type :=
  | Pending | Sent | Confirmed | Terminated | Rejected | TimedOut.

(** Modelled from the spec: the [CommandError] of section 7. *)
Inductive CommandError : Type :=
  | Busy | CommandRejected | CommandTimedOut | NotConnected.

(** Modelled from the spec: a request in flight and its state. *)
Record InFlight : Type := mkInFlight {
  request : CommandRequest;
  state : CommandState
}.

(** Modelled from the spec: the part of the [SessionState] of section 3
    that the dispatcher works on: the in-flight requests keyed by
    activation sequence.  A request leaves the set when it is terminated,
    rejected or timed out. *)
Record Dispatcher : Type := mkDispatcher {
  commonAddress : Z;
  in_flight : gmap N InFlight;
  next_activation : N
}.

(** Modelled from the spec: the dispatcher of a new session. *)
Definition empty (common : Z) : Dispatcher := mkDispatcher common ∅ 0%N.

(** Modelled from the spec: a request for the point is outstanding. *)
Definition outstanding_for (point : Z) (d : Dispatcher) : bool :=
  existsb (λ e, pointAddress (request e.2) =? point)
          (map_to_list (in_flight d)).

(** Modelled from the spec: a request is accepted with a new activation
    sequence, in state [Pending], unless one for the same point address is
    outstanding: then it fails at once with [Busy]. *)
Definition submit (req : CommandRequest) (d : Dispatcher)
    : (CommandError + N) * Dispatcher :=
  if outstanding_for (pointAddress req) d then (inl Busy, d)
  else
    (inr (next_activation d),
     mkDispatcher (commonAddress d)
       (<[next_activation d := mkInFlight req Pending]> (in_flight d))
       (N.succ (next_activation d))).

(** Modelled from the spec: test of the state of a request. *)
Definition is_state (st : CommandState) (e : InFlight) : bool :=
  match st, state e with
  | Pending, Pending | Sent, Sent | Confirmed, Confirmed
  | Terminated, Terminated | Rejected, Rejected | TimedOut, TimedOut => true
  | _, _ => false
  end.

(** Modelled from the spec: a request moved to another state. *)
Definition with_state (st : CommandState) (e : InFlight) : InFlight :=
  mkInFlight (request e) st.

(** Modelled from the spec: [Pending → Sent], when the command ASDU has
    been sent. *)
Definition mark_sent (seq : N) (d : Dispatcher) : Dispatcher :=
  mkDispatcher (commonAddress d)
    (alter (λ e, if is_state Pending e then with_state Sent e else e) seq
           (in_flight d))
    (next_activation d).

(** Modelled from the spec: a response ASDU matches a request in state
    [st] by common address and point address. *)
Definition awaits (st : CommandState) (common point : Z) (d : Dispatcher)
    (e : InFlight) : bool :=
  (common =? commonAddress d) && (pointAddress (request e) =? point)
  && is_state st e.

(** Modelled from the spec: the matching requests end in the state
    [final] and leave the in-flight set. *)
Definition resolve (matches : InFlight → bool) (final : CommandState)
    (d : Dispatcher) : Dispatcher * list (N * CommandState) :=
  (mkDispatcher (commonAddress d)
     (filter (λ kv, matches kv.2 = false) (in_flight d))
     (next_activation d),
   (λ kv, (kv.1, final))
     <$> map_to_list (filter (λ kv, matches kv.2 = true) (in_flight d))).

(** Modelled from the spec: an activation confirmation moves the matching
    request from [Sent] to [Confirmed] when it is positive and to
    [Rejected] when it is negative. *)
Definition on_confirmation (common point : Z) (positive : bool)
    (d : Dispatcher) : Dispatcher * list (N * CommandState) :=
  if positive then
    (mkDispatcher (commonAddress d)
       ((λ e, if awaits Sent common point d e then with_state Confirmed e
              else e) <$> in_flight d)
       (next_activation d), [])
  else resolve (awaits Sent common point d) Rejected d.

(** Modelled from the spec: an activation termination moves the matching
    request from [Confirmed] to [Terminated]. *)
Definition on_termination (common point : Z) (d : Dispatcher)
    : Dispatcher * list (N * CommandState) :=
  resolve (awaits Confirmed common point d) Terminated d.

(** Modelled from the spec: the timeout [tcmd] of a request that was sent
    moves it to [TimedOut]. *)
Definition on_timeout (seq : N) (d : Dispatcher)
    : Dispatcher * list (N * CommandState) :=
  match in_flight d !! seq with
  | Some e =>
      if is_state Sent e || is_state Confirmed e then
        (mkDispatcher (commonAddress d) (delete seq (in_flight d))
           (next_activation d), [(seq, TimedOut)])
      else (d, [])
  | None => (d, [])
  end.

(** Modelled from the spec: what happens to a dispatcher. *)
Inductive Event : Type :=
  | Submit (req : CommandRequest)
  | MarkSent (seq : N)
  | Confirmation (common point : Z) (positive : bool)
  | Termination (common point : Z)
  | Timeout (seq : N).

(** Modelled from the spec: the dispatcher after an event. *)
Definition step (ev : Event) (d : Dispatcher) : Dispatcher :=
  match ev with
  | Submit req => (submit req d).2
  | MarkSent seq => mark_sent seq d
  | Confirmation common point positive =>
      (on_confirmation common point positive d).1
  | Termination common point => (on_termination common point d).1
  | Timeout seq => (on_timeout seq d).1
  end.

(** Modelled from the spec: the dispatcher after a sequence of events. *)
Fixpoint run (evs : list Event) (d : Dispatcher) : Dispatcher :=
  match evs with
  | [] => d
  | ev :: evs' => run evs' (step ev d)
  end.

(** Modelled from the spec: at most one request in flight per point
    address. *)
Definition one_per_point (d : Dispatcher) : Prop :=
  ∀ seq1 seq2 e1 e2,
    in_flight d !! seq1 = Some e1 → in_flight d !! seq2 = Some e2 →
    pointAddress (request e1) = pointAddress (request e2) → seq1 = seq2.

(** Modelled from the spec: activation sequences in use are below the
    next one to be given. *)
Definition fresh (d : Dispatcher) : Prop :=
  ∀ seq e, in_flight d !! seq = Some e → (seq < next_activation d)%N.

(** A request, used in the examples. *)
Definition sample_command : CommandRequest :=
  mkRequest "rtu1" 2001 SingleCommand 1 0.

End CommandDispatcher.

(** ** Notions used to state the properties *)

(** The request carries an ['id'] key with a truthy value. *)
Definition has_truthy_id (content : gmap string pyval) : bool :=
  match content !! "id" with
  | Some v => truthy v
  | None => false
  end.

(** A call that fails instead of reporting success: it raises, or the
    payload it returns does not have the status ["success"]. *)
Definition rpc_fails (out : result RpcPayload) : Prop :=
  match out with
  | Ok payload => status payload ≠ "success"
  | Raise _ => True
  end.

(** Values of [thingsboard_gateway.gateway.constants] and a request, used in
    the examples. *)
Definition tb_constants : GatewayConstants :=
  mkConstants "device" "data" "method" "params".

Definition sample_request : gmap string pyval :=
  <["id" := PInt 7]> (<["device" := PStr "rtu1"]>
    (<["method" := PStr "setValue"]> ∅)).

(** ** Notions used to state the properties of runs *)

(** The stop flag after a run, read off the calls of [open()] and
    [close()] in it: the last one decides. *)
Fixpoint stop_flag_after (sch : list Extensions.Event) (flag : bool) : bool :=
  match sch with
  | [] => flag
  | Extensions.EvOpen :: sch' => stop_flag_after sch' false
  | Extensions.EvClose _ :: sch' => stop_flag_after sch' true
  | _ :: sch' => stop_flag_after sch' flag
  end.

Definition is_close (ev : Extensions.Event) : bool :=
  match ev with
  | Extensions.EvClose _ => true
  | _ => false
  end.

(** The payload with which a request is answered. *)
Definition simulated_payload (K : GatewayConstants)
    (content : gmap string pyval) : RpcPayload :=
  mkRpcPayload "success"
    [FLit "RPC method '"; FVal (dict_get content (RPC_METHOD_PARAMETER K));
     FLit "' for device '";
     FVal (dict_get content (DEVICE_SECTION_PARAMETER K));
     FLit "' processed (simulated)."].

(** The replies that an event sends through the gateway. *)
Definition replies_of (K : GatewayConstants) (ev : Extensions.Event)
    : list RpcReply :=
  match ev with
  | Extensions.EvRpc content =>
      if has_truthy_id content then
        [mkRpcReply (dict_get content (DEVICE_SECTION_PARAMETER K))
                    (dict_get content "id") (simulated_payload K content)]
      else []
  | _ => []
  end.

(** What [time.sleep] raises on a value that is not a duration. *)
Definition sleep_error (secs : pyval) : option PyExn :=
  match secs with
  | PInt z =>
      if (z <? - SLEEP_MAX) || (SLEEP_MAX <? z) then Some OverflowError
      else if z <? 0 then Some ValueError
      else None
  | PBool _ => None
  | _ => Some TypeError
  end.


(** The connection flag of the plain connector after a run: the last call
    of [open()] or [close()] decides. *)
Fixpoint plain_connected_after (sch : list Connectors.Event) (flag : bool)
    : bool :=
  match sch with
  | [] => flag
  | Connectors.EvOpen :: sch' => plain_connected_after sch' true
  | Connectors.EvClose :: sch' => plain_connected_after sch' false
  | Connectors.EvAttributes _ :: sch' => plain_connected_after sch' flag
  end.

(* ================================================================== *)
(** * Properties *)

(** ** Basic facts about the threaded connector *)

Module ExtFacts.
Import Extensions.

(** A statement that only appends to the log. *)
Lemma log_call_eq lvl fmt args s :
  log_call lvl fmt args s = (Ok tt, emit (mkLogRecord lvl fmt args) s).
Proof. reflexivity. Qed.

(** What the RPC handler does on any request in any state: it returns the
    simulated payload, logs two records, and sends the payload to the
    gateway when the request id is truthy. *)
Lemma server_side_rpc_handler_eq K content s :
  let device_name := dict_get content (DEVICE_SECTION_PARAMETER K) in
  let request_id := dict_get content "id" in
  let method := dict_get content (RPC_METHOD_PARAMETER K) in
  let params := dict_get content (RPC_PARAMS_PARAMETER K) in
  let payload :=
    mkRpcPayload "success"
      [FLit "RPC method '"; FVal method; FLit "' for device '";
       FVal device_name; FLit "' processed (simulated)."] in
  let logged :=
    emit (mkLogRecord DEBUG
            "RPC details: device_name=%s, method=%s, params=%s"
            [device_name; method; params])
         (emit (mkLogRecord INFO "Received server-side RPC request: %s"
                  [PDict content]) s) in
  server_side_rpc_handler K content s
  = (Ok payload,
     if truthy request_id then
       set_gateway
         (mkGateway (rpc_replies (__gateway s)
                     ++ [mkRpcReply device_name request_id payload])) logged
     else logged).
Proof.
  cbv zeta. unfold server_side_rpc_handler, bind, log_info, log_debug.
  rewrite !log_call_eq. cbn.
  destruct (truthy (dict_get content "id")); reflexivity.
Qed.

(** The first part of [run()] cannot fail: it logs and goes to sleep for
    one second. *)
Lemma run_begin_eq s :
  run_begin s
  = (Ok tt,
     set_thread (Alive (connect_sleep (now s + 1)))
       (emit (mkLogRecord INFO "Simulating connection to IEC device..." [])
          (emit (mkLogRecord INFO
                   "IEC connector thread '%s' has started its main loop."
                   [PStr (_connector_name s)]) s))).
Proof. reflexivity. Qed.

(** With the stop flag set the loop test fails and [run()] ends. *)
Lemma run_loop_stopped s :
  _stopped s = true →
  run_loop s
  = (Ok tt,
     set_thread (Finished None)
       (emit (mkLogRecord INFO
                "IEC connector thread '%s' main loop finished."
                [PStr (_connector_name s)]) s)).
Proof. intros H. unfold run_loop, bind, gets. rewrite H. reflexivity. Qed.

(** Otherwise an iteration begins: the debug record is logged and the
    worker sleeps, or the sleep raises and ends the thread. *)
Lemma run_loop_running s :
  _stopped s = false →
  ∃ r t,
    snd (run_loop s)
    = set_thread t
        (emit (mkLogRecord DEBUG
                 "IEC connector '%s' is running. Connected: %s"
                 [PStr (_connector_name s); PBool (_connected s)]) s)
    ∧ fst (run_loop s) = r
    ∧ match r with
      | Ok _ => ∃ until, t = Alive (poll_sleep until) ∧ now s ≤ until
      | Raise _ => t = thread s
      end.
Proof.
  intros H. unfold run_loop, bind, gets. rewrite H. cbn.
  unfold dict_get_default, time_sleep.
  destruct (default (PInt 5) (_config s !! "pollingInterval"))
    as [|b|z|?|?|?];
    [| |destruct ((z <? - SLEEP_MAX) || (SLEEP_MAX <? z));
        [|destruct (Z.ltb_spec z 0)]|..]; cbn;
    try (eexists _, _; split; [|split; [reflexivity|]]; cbn;
         [by destruct s|reflexivity]).
  - eexists _, _; split; [reflexivity|split; [reflexivity|]]. cbn.
    eexists; split; [reflexivity|]. destruct b; cbn; lia.
  - eexists _, _; split; [reflexivity|split; [reflexivity|]]. cbn.
    eexists; split; [reflexivity|]. lia.
Qed.

(** *** Turns of the worker *)

Lemma sleep_over until t :
  (Z.max until t <=? t) = (until <=? t).
Proof. destruct (Z.leb_spec until t), (Z.leb_spec (Z.max until t) t); lia. Qed.

Lemma worker_step_asleep s p :
  thread s = Alive p → now s < wake_time p (now s) → worker_step s = s.
Proof.
  intros Ht Hlt. unfold worker_step. rewrite Ht.
  destruct (Z.leb_spec (wake_time p (now s)) (now s)); [lia|done].
Qed.

Lemma worker_step_entry s :
  thread s = Alive at_entry →
  worker_step s
  = set_thread (Alive (connect_sleep (now s + 1)))
      (emit (mkLogRecord INFO "Simulating connection to IEC device..." [])
         (emit (mkLogRecord INFO
                  "IEC connector thread '%s' has started its main loop."
                  [PStr (_connector_name s)]) s)).
Proof.
  intros Ht. unfold worker_step. rewrite Ht. cbn [wake_time run].
  by rewrite Z.leb_refl, run_begin_eq.
Qed.

Lemma run_connected_eq s : run_connected s = run_loop (connected_state s).
Proof. reflexivity. Qed.

(** What a turn of the worker leaves alone, and what it never undoes. *)
Lemma worker_step_frame s :
  __gateway (worker_step s) = __gateway s
  ∧ _config (worker_step s) = _config s
  ∧ _connector_name (worker_step s) = _connector_name s
  ∧ _stopped (worker_step s) = _stopped s
  ∧ daemon (worker_step s) = daemon s
  ∧ now (worker_step s) = now s
  ∧ (_connected s = true → _connected (worker_step s) = true).
Proof.
  unfold worker_step. destruct (thread s) as [|p|] eqn:Ht; [done| |done].
  destruct (wake_time p (now s) <=? now s); [|done].
  destruct p as [|until|until]; cbn [run].
  - rewrite run_begin_eq. done.
  - rewrite run_connected_eq.
    destruct (_stopped s) eqn:Hst.
    + rewrite run_loop_stopped by done. done.
    + destruct (run_loop_running (connected_state s) Hst)
        as (r & t & Hs & Hr & _).
      destruct (run_loop (connected_state s)) as [[[]|e] s'];
        cbn in Hs; subst s'; done.
  - destruct (_stopped s) eqn:Hst.
    + rewrite run_loop_stopped by done. done.
    + destruct (run_loop_running s Hst) as (r & t & Hs & Hr & _).
      destruct (run_loop s) as [[[]|e] s']; cbn in Hs; subst s'; done.
Qed.

(** When the connection delay is over, the turn of the worker marks the
    connector as connected, whatever its state. *)
Lemma worker_step_connects s until :
  thread s = Alive (connect_sleep until) → until ≤ now s →
  _connected (worker_step s) = true.
Proof.
  intros Ht Hdue. unfold worker_step. rewrite Ht. cbn [wake_time run].
  rewrite sleep_over. destruct (Z.leb_spec until (now s)); [|lia].
  rewrite run_connected_eq.
  destruct (_stopped s) eqn:Hst.
  - rewrite run_loop_stopped by done. done.
  - destruct (run_loop_running (connected_state s) Hst)
      as (r & t & Hs & Hr & _).
    destruct (run_loop (connected_state s)) as [[[]|e] s'];
      cbn in Hs; subst s'; done.
Qed.

(** With the stop flag set, a worker whose sleep is over ends [run()]
    without beginning an iteration. *)
Lemma worker_step_stopped s p :
  _stopped s = true → thread s = Alive p → p ≠ at_entry →
  wake_time p (now s) ≤ now s →
  thread (worker_step s) = Finished None.
Proof.
  intros Hst Ht Hp Hdue. unfold worker_step. rewrite Ht.
  destruct (Z.leb_spec (wake_time p (now s)) (now s)); [|lia].
  destruct p as [|until|until]; [done| |]; cbn [run].
  - rewrite run_connected_eq, run_loop_stopped by done. done.
  - rewrite run_loop_stopped by done. done.
Qed.

Lemma loop_iterations_emit r s :
  loop_iterations (emit r s)
  = (loop_iterations s + (if is_loop_record r then 1 else 0))%nat.
Proof.
  unfold loop_iterations, emit. cbn. rewrite filter_app, length_app.
  f_equal. rewrite filter_cons, filter_nil.
  destruct (is_loop_record r);
    [rewrite decide_True by done | rewrite decide_False by done]; done.
Qed.

Lemma loop_iterations_set_thread t s :
  loop_iterations (set_thread t s) = loop_iterations s.
Proof. reflexivity. Qed.

Lemma loop_iterations_set_connected b s :
  loop_iterations (set_connected b s) = loop_iterations s.
Proof. reflexivity. Qed.

Lemma loop_iterations_set_stopped b s :
  loop_iterations (set_stopped b s) = loop_iterations s.
Proof. reflexivity. Qed.

Lemma loop_iterations_set_gateway g s :
  loop_iterations (set_gateway g s) = loop_iterations s.
Proof. reflexivity. Qed.

Lemma loop_iterations_stop_log s :
  loop_iterations (stop_log s) = loop_iterations s.
Proof. reflexivity. Qed.

Lemma worker_step_no_iteration s :
  _stopped s = true →
  loop_iterations (worker_step s) = loop_iterations s.
Proof.
  intros Hst. unfold worker_step.
  destruct (thread s) as [|p|] eqn:Ht; [done| |done].
  destruct (wake_time p (now s) <=? now s); [|done].
  destruct p as [|until|until]; cbn [run];
    rewrite ?run_connected_eq, ?run_begin_eq, ?run_loop_stopped by done;
    unfold connected_state;
    rewrite loop_iterations_set_thread, !loop_iterations_emit,
      ?loop_iterations_set_connected; cbn; lia.
Qed.

(** *** Waiting for the worker *)

Lemma join_wait_frame deadline turns s :
  __gateway (join_wait deadline turns s) = __gateway s
  ∧ _config (join_wait deadline turns s) = _config s
  ∧ _connector_name (join_wait deadline turns s) = _connector_name s
  ∧ _stopped (join_wait deadline turns s) = _stopped s
  ∧ daemon (join_wait deadline turns s) = daemon s
  ∧ now s ≤ now (join_wait deadline turns s) ≤ Z.max (now s) deadline
  ∧ (_connected s = true → _connected (join_wait deadline turns s) = true).
Proof.
  revert s. induction turns as [|turns IH]; intros s; cbn [join_wait].
  - destruct (thread s) as [|p|]; cbn; repeat split; try done; lia.
  - destruct (thread s) as [|p|] eqn:Ht;
      [cbn; repeat split; try done; lia| |cbn; repeat split; try done; lia].
    destruct (Z.leb_spec (wake_time p (now s)) deadline) as [Hle|Hgt];
      [|cbn; repeat split; try done; lia].
    set (s1 := advance_to (wake_time p (now s)) s).
    destruct (worker_step_frame s1) as (Hg & Hc & Hn & Hs & Hd & Ht1 & Hk).
    destruct (IH (worker_step s1)) as (Hg' & Hc' & Hn' & Hs' & Hd' & Ht' & Hk').
    rewrite Hg', Hc', Hn', Hs', Hd', Hg, Hc, Hn, Hs, Hd.
    rewrite Ht1 in Ht'. subst s1. cbn in *.
    repeat split; try done; try lia.
    intros Hconn. apply Hk', Hk, Hconn.
Qed.

Lemma join_wait_no_iteration deadline turns s :
  _stopped s = true →
  loop_iterations (join_wait deadline turns s) = loop_iterations s.
Proof.
  revert s. induction turns as [|turns IH]; intros s Hst; cbn [join_wait].
  - by destruct (thread s).
  - destruct (thread s) as [|p|]; [done| |done].
    destruct (wake_time p (now s) <=? deadline); [|done].
    rewrite IH.
    + by rewrite worker_step_no_iteration.
    + destruct (worker_step_frame (advance_to (wake_time p (now s)) s))
        as (_ & _ & _ & -> & _). done.
Qed.

(** The worker only appends to the log, and never a warning. *)
Lemma worker_step_log s :
  ∃ rs, records (log (worker_step s)) = (records (log s) ++ rs)%list
        ∧ Forall (λ r, lr_level r ≠ WARNING) rs
        ∧ logger_stopped (log (worker_step s)) = logger_stopped (log s).
Proof.
  unfold worker_step. destruct (thread s) as [|p|] eqn:Ht;
    [exists []; by rewrite app_nil_r| |exists []; by rewrite app_nil_r].
  destruct (wake_time p (now s) <=? now s);
    [|exists []; by rewrite app_nil_r].
  destruct p as [|until|until]; cbn [run].
  - rewrite run_begin_eq. cbn. rewrite <- app_assoc.
    eexists; split; [reflexivity|]. split; [|done].
    by repeat constructor.
  - rewrite run_connected_eq. destruct (_stopped s) eqn:Hst.
    + rewrite run_loop_stopped by done. cbn. rewrite <- app_assoc.
      eexists; split; [reflexivity|]. split; [|done].
      by repeat constructor.
    + destruct (run_loop_running (connected_state s) Hst)
        as (r & t & Hs & Hr & _).
      destruct (run_loop (connected_state s)) as [[[]|e] s'];
        cbn in Hs; subst s'; cbn; rewrite <- app_assoc;
        (eexists; split; [reflexivity|]; split; [|done]);
        by repeat constructor.
  - destruct (_stopped s) eqn:Hst.
    + rewrite run_loop_stopped by done. cbn.
      eexists; split; [reflexivity|]. split; [|done].
      by repeat constructor.
    + destruct (run_loop_running s Hst) as (r & t & Hs & Hr & _).
      destruct (run_loop s) as [[[]|e] s']; cbn in Hs; subst s'; cbn;
        (eexists; split; [reflexivity|]; split; [|done]);
        by repeat constructor.
Qed.

Lemma join_wait_log deadline turns s :
  ∃ rs, records (log (join_wait deadline turns s))
        = (records (log s) ++ rs)%list
        ∧ Forall (λ r, lr_level r ≠ WARNING) rs
        ∧ logger_stopped (log (join_wait deadline turns s))
          = logger_stopped (log s).
Proof.
  revert s. induction turns as [|turns IH]; intros s; cbn [join_wait].
  - exists []. rewrite app_nil_r. by destruct (thread s).
  - destruct (thread s) as [|p|];
      [exists []; by rewrite app_nil_r| |exists []; by rewrite app_nil_r].
    destruct (wake_time p (now s) <=? deadline);
      [|exists []; by rewrite app_nil_r].
    destruct (IH (worker_step (advance_to (wake_time p (now s)) s)))
      as (rs2 & -> & Hrs2 & ->).
    destruct (worker_step_log (advance_to (wake_time p (now s)) s))
      as (rs1 & -> & Hrs1 & ->).
    exists (rs1 ++ rs2)%list. rewrite <- app_assoc.
    split; [done|]. split; [by apply Forall_app|done].
Qed.

(** A thread that is alive when the wait ends has been waited for until
    the deadline. *)
Lemma join_wait_alive deadline turns s :
  is_alive (join_wait deadline turns s) = true →
  now (join_wait deadline turns s) = Z.max (now s) deadline.
Proof.
  revert s. induction turns as [|turns IH]; intros s; cbn [join_wait].
  - unfold is_alive. destruct (thread s) eqn:Ht; rewrite ?Ht; done.
  - unfold is_alive at 1.
    destruct (thread s) as [|p|] eqn:Ht; rewrite ?Ht; [done| |done].
    destruct (Z.leb_spec (wake_time p (now s)) deadline) as [Hle|Hgt];
      [|done].
    intros Hal. rewrite IH by exact Hal.
    destruct (worker_step_frame (advance_to (wake_time p (now s)) s))
      as (_ & _ & _ & _ & _ & -> & _).
    cbn. lia.
Qed.

(** *** [open()] and [close()] *)

Lemma open_eq s :
  open s
  = match thread s with
    | Initial =>
        (Ok tt,
         emit (mkLogRecord DEBUG
                 "IEC connector thread started successfully." [])
           (set_thread (Alive at_entry)
              (set_stopped false
                 (emit (mkLogRecord INFO
                          "Opening IEC connector and starting its thread."
                          []) s))))
    | _ =>
        (Raise (RuntimeError "threads can only be started once"),
         set_stopped false
           (emit (mkLogRecord INFO
                    "Opening IEC connector and starting its thread." [])
              s))
    end.
Proof.
  unfold open, bind, start, gets, log_info, log_debug.
  rewrite !log_call_eq. cbn. by destruct (thread s).
Qed.

(** The state in which [close()] leaves the instance. *)
Lemma close_eq turns s :
  close turns s
  = (Ok tt,
     let s1 := closing_state s in
     let s2 :=
       if is_alive s1 then
         let joined := join_wait (now s1 + 5) turns s1 in
         if is_alive joined then
           emit (mkLogRecord WARNING
                   "IEC connector thread did not terminate gracefully within 5 seconds."
                   []) joined
         else joined
       else s1 in
     let s3 :=
       emit (mkLogRecord INFO
               "IEC connector thread stopped and resources cleaned." [])
            s2 in
     stop_log s3).
Proof.
  unfold close, bind, gets, log_info, log_warning, log_stop, join.
  rewrite !log_call_eq. cbn -[join_wait].
  fold (closing_state s).
  destruct (is_alive (closing_state s)) eqn:Hal; [|reflexivity].
  unfold is_alive in Hal.
  destruct (thread (closing_state s)) as [|p|] eqn:Ht; [done| |done].
  cbn -[join_wait].
  destruct (is_alive (join_wait _ _ _)); reflexivity.
Qed.

Lemma open_clears_stop_flag s : _stopped (after open s) = false.
Proof. unfold after. rewrite open_eq. by destruct (thread s). Qed.

(** What [close()] leaves alone, the flags it sets, the time it takes and
    the iterations of the worker during its wait. *)
Lemma close_frame turns s :
  __gateway (after (close turns) s) = __gateway s
  ∧ _config (after (close turns) s) = _config s
  ∧ _connector_name (after (close turns) s) = _connector_name s
  ∧ _stopped (after (close turns) s) = true
  ∧ now s ≤ now (after (close turns) s) ≤ now s + 5
  ∧ loop_iterations (after (close turns) s) = loop_iterations s.
Proof.
  unfold after. rewrite close_eq. cbv zeta. cbn [snd].
  assert (Hcl : loop_iterations (closing_state s) = loop_iterations s).
  { unfold closing_state.
    rewrite loop_iterations_set_connected, loop_iterations_set_stopped.
    by rewrite loop_iterations_emit, Nat.add_0_r. }
  destruct (join_wait_frame (now (closing_state s) + 5) turns
              (closing_state s)) as (Hg & Hc & Hn & Hs & _ & Ht & _).
  pose proof (join_wait_no_iteration (now (closing_state s) + 5) turns
                (closing_state s) eq_refl) as Hit.
  change (now (closing_state s)) with (now s) in *.
  rewrite loop_iterations_stop_log, loop_iterations_emit, Nat.add_0_r.
  destruct (is_alive (closing_state s)); [|repeat split; (done || cbn; lia)].
  destruct (is_alive (join_wait _ _ _));
    rewrite ?loop_iterations_emit, ?Nat.add_0_r, Hit, Hcl;
    cbn [stop_log emit set_log __gateway _config _connector_name _stopped
         now];
    rewrite Hg, Hc, Hn, Hs; repeat split; (done || lia).
Qed.

(** *** A worker that is past the simulated connection *)

Lemma worker_step_past s :
  past_connection s = true →
  _connected (worker_step s) = _connected s
  ∧ past_connection (worker_step s) = true.
Proof.
  unfold past_connection, worker_step.
  destruct (thread s) as [|[|until|until]|exc] eqn:Ht; try done;
    rewrite ?Ht; try done.
  intros _. destruct (_ <=? _); [|by rewrite Ht]. cbn [run].
  destruct (_stopped s) eqn:Hst.
  - rewrite run_loop_stopped by done. done.
  - destruct (run_loop_running s Hst) as (r & t & Hs & Hr & Hres).
    destruct (run_loop s) as [[[]|e] s']; cbn in Hs, Hr; subst s' r.
    + destruct Hres as (u & -> & _). done.
    + done.
Qed.

Lemma join_wait_past deadline turns s :
  past_connection s = true →
  _connected (join_wait deadline turns s) = _connected s
  ∧ past_connection (join_wait deadline turns s) = true.
Proof.
  revert s. induction turns as [|turns IH]; intros s Hpast; cbn [join_wait].
  - by destruct (thread s).
  - destruct (thread s) as [|p|] eqn:Ht; [done| |done].
    destruct (_ <=? _); [|done].
    set (s1 := advance_to (wake_time p (now s)) s).
    destruct (worker_step_past s1) as [Hconn Hpast1]; [done|].
    destruct (IH (worker_step s1) Hpast1) as [-> ->]. by rewrite Hconn.
Qed.

Lemma close_past turns s :
  past_connection s = true →
  _connected (after (close turns) s) = false
  ∧ _stopped (after (close turns) s) = true
  ∧ past_connection (after (close turns) s) = true.
Proof.
  intros Hpast. unfold after. rewrite close_eq. cbv zeta. cbn [snd].
  destruct (join_wait_frame (now (closing_state s) + 5) turns
              (closing_state s)) as (_ & _ & _ & Hst & _).
  destruct (join_wait_past (now (closing_state s) + 5) turns
              (closing_state s) Hpast) as [Hconn Hpast'].
  destruct (is_alive (closing_state s)); [|done].
  destruct (is_alive (join_wait _ _ _));
    change (_connected (stop_log (emit ?r ?x))) with (_connected x);
    change (_stopped (stop_log (emit ?r ?x))) with (_stopped x);
    change (past_connection (stop_log (emit ?r ?x))) with (past_connection x);
    rewrite ?Hconn, ?Hst; done.
Qed.

(** *** Steps of a run *)

(** No event changes the name or the configuration of the instance. *)
Lemma step_identity K ev s :
  _connector_name (step K ev s) = _connector_name s
  ∧ _config (step K ev s) = _config s.
Proof.
  destruct ev as [|turns|content|content| |d]; cbn [step].
  - unfold after. rewrite open_eq. by destruct (thread s).
  - destruct (close_frame turns s) as (_ & -> & -> & _). done.
  - unfold after. rewrite server_side_rpc_handler_eq. cbv zeta.
    by destruct (truthy _).
  - done.
  - destruct (worker_step_frame s) as (_ & -> & -> & _). done.
  - done.
Qed.

(** An event after which the stop flag is still set has not begun an
    iteration of the loop. *)
Lemma step_no_iteration K ev s :
  _stopped s = true → _stopped (step K ev s) = true →
  loop_iterations (step K ev s) = loop_iterations s.
Proof.
  intros Hst Hst'. destruct ev as [|turns|content|content| |d]; cbn [step] in *.
  - by rewrite open_clears_stop_flag in Hst'.
  - by destruct (close_frame turns s) as (_ & _ & _ & _ & _ & ->).
  - unfold after. rewrite server_side_rpc_handler_eq. cbv zeta.
    destruct (truthy _); cbn [snd];
      rewrite ?loop_iterations_set_gateway, !loop_iterations_emit; cbn; lia.
  - unfold after, on_attributes_update, bind, log_info, log_debug.
    rewrite !log_call_eq. cbn [snd].
    rewrite !loop_iterations_emit. cbn. lia.
  - by apply worker_step_no_iteration.
  - done.
Qed.

Lemma exec_no_iteration K sch s :
  _stopped s = true →
  (∀ pre, pre `prefix_of` sch → _stopped (exec K pre s) = true) →
  loop_iterations (exec K sch s) = loop_iterations s.
Proof.
  revert s. induction sch as [|ev sch IH]; intros s Hst Hpre; [done|].
  cbn [exec].
  assert (Hst' : _stopped (step K ev s) = true).
  { apply (Hpre [ev]). by apply prefix_cons, prefix_nil. }
  rewrite IH; [by apply step_no_iteration|done|].
  intros pre Hp. apply (Hpre (ev :: pre)). by apply prefix_cons.
Qed.

(** *** The simulated connection *)

Lemma connecting_ext s s' :
  thread s' = thread s → now s ≤ now s' → connecting s → connecting s'.
Proof.
  intros Ht Hnow [Hc|(until & Hc & Hle)]; [left|right].
  - by rewrite Ht.
  - exists until. rewrite Ht. split; [done|lia].
Qed.

Lemma connecting_alive s : connecting s → is_alive s = true.
Proof. unfold is_alive. by intros [->|(until & -> & _)]. Qed.

(** A turn of a connecting worker leaves it connecting, or marks the
    connector as connected. *)
Lemma worker_step_connecting s :
  connecting s →
  connecting (worker_step s) ∨ _connected (worker_step s) = true.
Proof.
  intros [Hc|(until & Hc & Hle)].
  - left. rewrite worker_step_entry by done. right.
    exists (now s + 1). cbn. split; [done|lia].
  - destruct (Z.le_gt_cases until (now s)) as [Hdue|Hnot].
    + right. by apply (worker_step_connects s until).
    + left. rewrite (worker_step_asleep s (connect_sleep until));
        [|done|cbn; lia].
      right. by exists until.
Qed.

Lemma join_wait_connecting deadline turns s :
  connecting s →
  connecting (join_wait deadline turns s)
  ∨ _connected (join_wait deadline turns s) = true.
Proof.
  revert s. induction turns as [|turns IH]; intros s Hc; cbn [join_wait].
  - left. destruct (thread s) eqn:Ht; [done| |done].
    apply (connecting_ext s); [done|cbn; lia|done].
  - destruct (thread s) as [|p|] eqn:Ht; [by left| |by left].
    destruct (wake_time p (now s) <=? deadline);
      [|left; apply (connecting_ext s); [done|cbn; lia|done]].
    set (s1 := advance_to (wake_time p (now s)) s).
    assert (Hc1 : connecting s1)
      by (apply (connecting_ext s); [done|cbn; lia|done]).
    destruct (worker_step_connecting s1 Hc1) as [Hc2|Hconn].
    + by apply IH.
    + right. by apply join_wait_frame.
Qed.

Lemma step_connecting K ev s :
  connecting s →
  connecting (step K ev s) ∨ _connected (step K ev s) = true.
Proof.
  intros Hc. destruct ev as [|turns|content|content| |d]; cbn [step].
  - left. unfold after. rewrite open_eq.
    pose proof (connecting_alive s Hc) as Hal. unfold is_alive in Hal.
    destruct (thread s) as [|p|] eqn:Ht; [done| |done].
    apply (connecting_ext s); [by rewrite Ht|cbn; lia|done].
  - unfold after. rewrite close_eq. cbv zeta. cbn [snd].
    assert (Hcl : connecting (closing_state s))
      by (apply (connecting_ext s); [done|cbn; lia|done]).
    rewrite (connecting_alive _ Hcl).
    destruct (join_wait_connecting (now (closing_state s) + 5) turns
                (closing_state s) Hcl) as [Hj|Hj].
    + left. rewrite (connecting_alive _ Hj).
      eapply connecting_ext; [| |exact Hj]; [done|cbn; lia].
    + right. by destruct (is_alive (join_wait _ _ _)).
  - left. unfold after. rewrite server_side_rpc_handler_eq. cbv zeta.
    apply (connecting_ext s); [by destruct (truthy _)| |done].
    destruct (truthy _); cbn; lia.
  - left. apply (connecting_ext s); [done|cbn; lia|done].
  - by apply worker_step_connecting.
  - left. apply (connecting_ext s); [done|cbn; lia|done].
Qed.

(** Along a run that starts with a connecting worker, the connector is
    marked as connected at some point, or the worker is still connecting
    at the end. *)
Lemma exec_connecting K sch s :
  connecting s →
  (∃ pre, pre `prefix_of` sch ∧ _connected (exec K pre s) = true)
  ∨ connecting (exec K sch s).
Proof.
  revert s. induction sch as [|ev sch IH]; intros s Hc; [by right|].
  cbn [exec]. destruct (step_connecting K ev s Hc) as [Hc'|Hconn].
  - destruct (IH _ Hc') as [(pre & Hpre & Hconn)|Hend]; [left|by right].
    exists (ev :: pre). split; [by apply prefix_cons|done].
  - left. exists [ev]. split; [by apply prefix_cons, prefix_nil|done].
Qed.

(** A connecting worker that gets a turn, a second of time and another
    turn has marked the connector as connected. *)
Lemma connecting_connects s :
  connecting s →
  _connected (worker_step (tick 1 (worker_step s))) = true.
Proof.
  intros Hc.
  destruct (worker_step_connecting s Hc)
    as [[Hc'|(until & Hc' & Hle)]|Hconn].
  - (* the first turn was the entry of [run()], which leaves [at_entry] *)
    exfalso. destruct Hc as [Hc|(until & Hc & _)].
    + rewrite worker_step_entry in Hc' by done. done.
    + destruct (worker_step_frame s) as (_ & _ & _ & _ & _ & Hnow & _).
      destruct (Z.le_gt_cases until (now s)) as [Hdue|Hnot].
      * unfold worker_step in Hc'. rewrite Hc in Hc'. cbn [wake_time run] in Hc'.
        rewrite sleep_over in Hc'.
        destruct (Z.leb_spec until (now s)); [|lia].
        rewrite run_connected_eq in Hc'.
        destruct (_stopped s) eqn:Hst.
        -- rewrite run_loop_stopped in Hc' by done. done.
        -- destruct (run_loop_running (connected_state s) Hst)
             as (r & t & Hs & Hr & Hres).
           destruct (run_loop (connected_state s)) as [[[]|e] s'];
             cbn in Hs, Hr; subst s' r; cbn in Hc'.
           ++ destruct Hres as (u & -> & _). done.
           ++ done.
      * rewrite (worker_step_asleep s (connect_sleep until)) in Hc';
          [|done|cbn; lia].
        congruence.
  - apply (worker_step_connects _ until); [done|]. cbn.
    destruct (worker_step_frame s) as (_ & _ & _ & _ & _ & Hnow & _). lia.
  - apply worker_step_frame. done.
Qed.

End ExtFacts.

(** ** The model on some runs *)

(** A second [open()] of the threaded connector raises: a thread is
    started once. *)
Example open_twice_raises :
  let s := after Extensions.open
             (Extensions.__init__ (mkGateway []) ∅ "iec") in
  fst (Extensions.open s)
  = Raise (RuntimeError "threads can only be started once")
  ∧ Extensions.is_stopped (after Extensions.open s) = false.
Proof. vm_compute. done. Qed.

(** With a polling interval of a minute, a worker that is in its loop does
    not end within the wait of [close()]: the wait lasts five seconds and
    the warning is logged. *)
Example close_times_out :
  let s :=
    Extensions.exec tb_constants
      [Extensions.EvOpen; Extensions.EvWorker; Extensions.EvTick 1;
       Extensions.EvWorker; Extensions.EvTick 3; Extensions.EvClose 9]
      (Extensions.__init__ (mkGateway [])
         (<["pollingInterval" := PInt 60]> ∅) "iec") in
  Extensions.thread s = Extensions.Alive (Extensions.poll_sleep 61)
  ∧ Extensions.now s = 9
  ∧ Extensions.is_connected s = false
  ∧ Extensions.loop_iterations s = 1%nat
  ∧ (lr_level <$> last (removelast (records (Extensions.log s))))
    = Some WARNING.
Proof. vm_compute. done. Qed.

(** A polling interval that is not a number ends the worker at its first
    iteration, after the connector was marked as connected. *)
Example bad_polling_interval_ends_worker :
  let s :=
    Extensions.exec tb_constants
      [Extensions.EvOpen; Extensions.EvWorker; Extensions.EvTick 1;
       Extensions.EvWorker]
      (Extensions.__init__ (mkGateway [])
         (<["pollingInterval" := PStr "5"]> ∅) "iec") in
  Extensions.thread s = Extensions.Finished (Some TypeError)
  ∧ Extensions.is_connected s = true.
Proof. vm_compute. done. Qed.

(** A polling interval of more seconds than [time.sleep] takes ends the
    worker with an [OverflowError], whatever its sign. *)
Example huge_polling_interval_overflows :
  let run_with interval :=
    Extensions.exec tb_constants
      [Extensions.EvOpen; Extensions.EvWorker; Extensions.EvTick 1;
       Extensions.EvWorker]
      (Extensions.__init__ (mkGateway [])
         (<["pollingInterval" := PInt interval]> ∅) "iec") in
  Extensions.thread (run_with 9223372037)
  = Extensions.Finished (Some OverflowError)
  ∧ Extensions.thread (run_with (-9223372037))
    = Extensions.Finished (Some OverflowError)
  ∧ Extensions.thread (run_with (-9223372036))
    = Extensions.Finished (Some ValueError)
  ∧ Extensions.thread (run_with 9223372036)
    = Extensions.Alive (Extensions.poll_sleep 9223372037).
Proof. vm_compute. done. Qed.

(** A request without an id is answered to the caller only. *)
Example rpc_without_id :
  let s := Extensions.__init__ (mkGateway []) ∅ "iec" in
  let out :=
    Extensions.server_side_rpc_handler tb_constants
      (<["method" := PStr "setValue"]> ∅) s in
  (status <$> match fst out with Ok p => Some p | Raise _ => None end)
  = Some "success"
  ∧ rpc_replies (Extensions.__gateway (snd out)) = [].
Proof. vm_compute. done. Qed.

(** Frames of the three formats, a truncated frame and a frame whose
    length byte is above the maximum. *)
Example encode_startdt :
  FrameCodec.encode (FrameCodec.UFormat FrameCodec.STARTDT_ACT)
  = [104; 4; 7; 0; 0; 0].
Proof. reflexivity. Qed.

Example encode_supervisory :
  FrameCodec.encode (FrameCodec.SFormat 129) = [104; 4; 1; 0; 2; 1].
Proof. reflexivity. Qed.

Example decode_information :
  FrameCodec.decode [104; 6; 4; 0; 2; 1; 30; 1]
  = FrameCodec.Frame (FrameCodec.IFormat 2 129 [30; 1]).
Proof. reflexivity. Qed.

Example decode_truncated :
  FrameCodec.decode [104; 6; 4; 0; 2]
  = FrameCodec.Error FrameCodec.Truncated.
Proof. reflexivity. Qed.

Example decode_too_long :
  FrameCodec.decode [104; 254; 4; 0; 2; 1]
  = FrameCodec.Error FrameCodec.Malformed.
Proof. reflexivity. Qed.

(** ** Requests from the platform *)

(** C9. On every request and in every state, [server_side_rpc_handler]
    returns (it does not raise) a payload whose status is ["success"], and
    it sends that payload through [send_rpc_reply] exactly once when the
    request has a truthy ['id'] and not at all otherwise. *)
Theorem rpc_handler_reports_success K content s :
  ∃ payload s',
    Extensions.server_side_rpc_handler K content s = (Ok payload, s')
    ∧ status payload = "success"
    ∧ rpc_replies (Extensions.__gateway s')
      = (rpc_replies (Extensions.__gateway s)
         ++ (if has_truthy_id content then
               [mkRpcReply (dict_get content (DEVICE_SECTION_PARAMETER K))
                           (dict_get content "id") payload]
             else []))%list.
Proof.
  eexists _, _. split; [apply ExtFacts.server_side_rpc_handler_eq|].
  split; [reflexivity|].
  unfold has_truthy_id, dict_get, dict_get_default.
  destruct (content !! "id") as [v|]; cbn.
  - destruct (truthy v); cbn; [reflexivity | by rewrite app_nil_r].
  - by rewrite app_nil_r.
Qed.

(** C1, as stated, fails: a freshly constructed connector is not
    connected, and a request handled in that state reports success. *)
Lemma rpc_while_disconnected_reports_success :
  let s := Extensions.__init__ (mkGateway []) ∅ "iec" in
  Extensions.is_connected s = false
  ∧ ¬ rpc_fails
        (fst (Extensions.server_side_rpc_handler tb_constants
                sample_request s)).
Proof.
  cbv zeta. split; [reflexivity|].
  rewrite ExtFacts.server_side_rpc_handler_eq. cbn. intros H. by apply H.
Qed.

(** C1, amended. For every request handled while the connector is not
    connected, the handler does not look at the connection state: it
    returns the simulated payload, whose status is ["success"], sends that
    same payload through [send_rpc_reply] once when the request id is
    truthy and nothing otherwise, and leaves the connector not connected;
    in any other state, connected or not, the same request gets the same
    payload and the same reply. *)
Theorem rpc_while_disconnected_is_simulated K content s :
  Extensions.is_connected s = false →
  let sent :=
    if has_truthy_id content then
      [mkRpcReply (dict_get content (DEVICE_SECTION_PARAMETER K))
                  (dict_get content "id") (simulated_payload K content)]
    else [] in
  ∃ s',
    Extensions.server_side_rpc_handler K content s
    = (Ok (simulated_payload K content), s')
    ∧ status (simulated_payload K content) = "success"
    ∧ Extensions.is_connected s' = false
    ∧ rpc_replies (Extensions.__gateway s')
      = (rpc_replies (Extensions.__gateway s) ++ sent)%list
    ∧ ∀ other,
        fst (Extensions.server_side_rpc_handler K content other)
        = Ok (simulated_payload K content)
        ∧ rpc_replies
            (Extensions.__gateway
               (after (Extensions.server_side_rpc_handler K content) other))
          = (rpc_replies (Extensions.__gateway other) ++ sent)%list
        ∧ Extensions.is_connected
            (after (Extensions.server_side_rpc_handler K content) other)
          = Extensions.is_connected other.
Proof.
  intros Hdisc. cbv zeta.
  assert (Hany : ∀ other,
    fst (Extensions.server_side_rpc_handler K content other)
    = Ok (simulated_payload K content)
    ∧ rpc_replies
        (Extensions.__gateway
           (after (Extensions.server_side_rpc_handler K content) other))
      = (rpc_replies (Extensions.__gateway other)
         ++ (if has_truthy_id content then
               [mkRpcReply (dict_get content (DEVICE_SECTION_PARAMETER K))
                           (dict_get content "id")
                           (simulated_payload K content)]
             else []))%list
    ∧ Extensions.is_connected
        (after (Extensions.server_side_rpc_handler K content) other)
      = Extensions.is_connected other).
  { intros other. unfold after.
    rewrite ExtFacts.server_side_rpc_handler_eq. cbv zeta. cbn [fst snd].
    split; [reflexivity|].
    unfold has_truthy_id, dict_get, dict_get_default.
    destruct (content !! "id") as [v|]; cbn;
      [destruct (truthy v); cbn|]; by rewrite ?app_nil_r. }
  destruct (Hany s) as (Hret & Hsent & Hconn).
  exists (after (Extensions.server_side_rpc_handler K content) s).
  split; [|split; [reflexivity|split; [by rewrite Hconn|split; done]]].
  unfold after in *.
  destruct (Extensions.server_side_rpc_handler K content s) as [r s'].
  cbn in *. by rewrite Hret.
Qed.

Lemma rpc_while_disconnected_is_simulated_witness :
  let s := Extensions.__init__ (mkGateway []) ∅ "iec" in
  let sent :=
    if has_truthy_id sample_request then
      [mkRpcReply
         (dict_get sample_request (DEVICE_SECTION_PARAMETER tb_constants))
         (dict_get sample_request "id")
         (simulated_payload tb_constants sample_request)]
    else [] in
  ∃ s',
    Extensions.server_side_rpc_handler tb_constants sample_request s
    = (Ok (simulated_payload tb_constants sample_request), s')
    ∧ status (simulated_payload tb_constants sample_request) = "success"
    ∧ Extensions.is_connected s' = false
    ∧ rpc_replies (Extensions.__gateway s')
      = (rpc_replies (Extensions.__gateway s) ++ sent)%list
    ∧ ∀ other,
        fst (Extensions.server_side_rpc_handler tb_constants sample_request
               other)
        = Ok (simulated_payload tb_constants sample_request)
        ∧ rpc_replies
            (Extensions.__gateway
               (after (Extensions.server_side_rpc_handler tb_constants
                         sample_request) other))
          = (rpc_replies (Extensions.__gateway other) ++ sent)%list
        ∧ Extensions.is_connected
            (after (Extensions.server_side_rpc_handler tb_constants
                      sample_request) other)
          = Extensions.is_connected other.
Proof.
  cbv zeta.
  apply (rpc_while_disconnected_is_simulated tb_constants sample_request
           (Extensions.__init__ (mkGateway []) ∅ "iec")).
  reflexivity.
Defined.

(** ** Construction *)

(** C8. A freshly constructed connector is not connected, in both
    classes; the threaded one is not stopped either, and its thread has
    not been started. *)
Theorem fresh_connector_not_connected gateway config connector_name :
  Extensions.is_connected
    (Extensions.__init__ gateway config connector_name) = false
  ∧ Extensions.is_stopped
      (Extensions.__init__ gateway config connector_name) = false
  ∧ Extensions.is_alive
      (Extensions.__init__ gateway config connector_name) = false
  ∧ Connectors.is_connected
      (Connectors.__init__ gateway config connector_name) = false.
Proof. repeat split. Qed.

(** ** Name and configuration *)

(** C10. The name and the configuration given to the constructor are
    never modified: after any run of calls of [open()], [close()],
    [on_attributes_update()] and [server_side_rpc_handler()], interleaved
    in any way with turns of the worker thread and with delays,
    [get_name()], [get_id()] and [get_config()] return the constructor's
    arguments; so does [get_name()] of the plain connector. *)
Theorem name_and_config_never_modified K gateway config connector_name
    (sch : list Extensions.Event) (sch' : list Connectors.Event) :
  let s :=
    Extensions.exec K sch
      (Extensions.__init__ gateway config connector_name) in
  let s' :=
    Connectors.exec sch'
      (Connectors.__init__ gateway config connector_name) in
  Extensions.get_name s = connector_name
  ∧ Extensions.get_id s = connector_name
  ∧ Extensions.get_config s = config
  ∧ Connectors.get_name s' = connector_name.
Proof.
  cbv zeta.
  assert (Hext : ∀ s,
    Extensions._connector_name (Extensions.exec K sch s)
    = Extensions._connector_name s
    ∧ Extensions._config (Extensions.exec K sch s) = Extensions._config s).
  { induction sch as [|ev sch IH]; intros s; [done|].
    cbn [Extensions.exec].
    destruct (IH (Extensions.step K ev s)) as [-> ->].
    apply ExtFacts.step_identity. }
  assert (Hplain : ∀ s,
    Connectors._connector_name (Connectors.exec sch' s)
    = Connectors._connector_name s).
  { induction sch' as [|ev sch' IH]; intros s; [done|].
    cbn [Connectors.exec]. rewrite IH. by destruct ev. }
  unfold Extensions.get_name, Extensions.get_id, Extensions.get_config,
    Connectors.get_name.
  destruct (Hext (Extensions.__init__ gateway config connector_name))
    as [-> ->].
  rewrite Hplain. done.
Qed.

(** ** The stop flag and the loop of the worker *)

(** C5. Once [close()] has set the stop flag, and for as long as the flag
    stays set, the worker begins no iteration of its loop: whatever calls,
    turns of the worker and delays follow, the number of iterations begun
    is the one at the call of [close()]; and a worker whose sleep is over
    ends [run()] at its next turn. *)
Theorem stop_flag_ends_loop K turns sch s :
  (∀ pre, pre `prefix_of` sch →
     Extensions.is_stopped
       (Extensions.exec K (Extensions.EvClose turns :: pre) s) = true) →
  let s' := Extensions.exec K (Extensions.EvClose turns :: sch) s in
  Extensions.loop_iterations s' = Extensions.loop_iterations s
  ∧ ∀ p, Extensions.thread s' = Extensions.Alive p →
         p ≠ Extensions.at_entry →
         Extensions.wake_time p (Extensions.now s') ≤ Extensions.now s' →
         Extensions.thread (Extensions.worker_step s')
         = Extensions.Finished None.
Proof.
  intros Hflag. cbv zeta. cbn [Extensions.exec Extensions.step].
  destruct (ExtFacts.close_frame turns s) as (_ & _ & _ & Hst & _ & Hit).
  split.
  - rewrite ExtFacts.exec_no_iteration; [done..|].
    intros pre Hp. apply (Hflag pre Hp).
  - intros p Hp Hne Hdue.
    apply (ExtFacts.worker_step_stopped _ p); [|done..].
    apply (Hflag sch). done.
Qed.

Lemma stop_flag_ends_loop_witness :
  let sch := [Extensions.EvRpc sample_request; Extensions.EvTick 1] in
  let s :=
    Extensions.exec tb_constants
      [Extensions.EvOpen; Extensions.EvWorker; Extensions.EvTick 1;
       Extensions.EvWorker; Extensions.EvTick 2]
      (Extensions.__init__ (mkGateway [])
         (<["pollingInterval" := PInt 4]> ∅) "iec") in
  let s' :=
    Extensions.exec tb_constants (Extensions.EvClose 0 :: sch) s in
  Extensions.loop_iterations s' = Extensions.loop_iterations s
  ∧ ∀ p, Extensions.thread s' = Extensions.Alive p →
         p ≠ Extensions.at_entry →
         Extensions.wake_time p (Extensions.now s') ≤ Extensions.now s' →
         Extensions.thread (Extensions.worker_step s')
         = Extensions.Finished None.
Proof.
  cbv zeta.
  apply (stop_flag_ends_loop tb_constants 0).
  intros pre [rest Hpre].
  repeat (destruct pre as [|? pre];
          [vm_compute; reflexivity
          |try discriminate Hpre; injection Hpre as <- Hpre]).
Defined.

(** ** Shutdown *)

(** C4. [close()] waits for the worker for at most five seconds and then
    goes on: in every state and under every scheduling of the worker it
    returns normally, at most five seconds after it was called; when the
    worker is still alive at that point the whole bound was waited for and
    a warning is logged before the final record, and otherwise no warning
    is logged. *)
Theorem close_waits_at_most_five_seconds turns s :
  ∃ s' worker_records,
    Extensions.close turns s = (Ok tt, s')
    ∧ Extensions.now s ≤ Extensions.now s' ≤ Extensions.now s + 5
    ∧ (Extensions.is_alive s' = true →
       Extensions.now s' = Extensions.now s + 5)
    ∧ records (Extensions.log s')
      = (records (Extensions.log s)
         ++ [mkLogRecord INFO
               "Closing IEC connector and stopping its thread." []]
         ++ worker_records
         ++ (if Extensions.is_alive s' then
               [mkLogRecord WARNING
                  "IEC connector thread did not terminate gracefully within 5 seconds."
                  []]
             else [])
         ++ [mkLogRecord INFO
               "IEC connector thread stopped and resources cleaned." []])%list
    ∧ Forall (λ r, lr_level r ≠ WARNING) worker_records
    ∧ logger_stopped (Extensions.log s') = true
    ∧ Extensions.is_stopped s' = true.
Proof.
  destruct (ExtFacts.close_frame turns s) as (_ & _ & _ & Hst & Hnow & _).
  unfold after in *. rewrite ExtFacts.close_eq in *. cbv zeta in *.
  cbn [snd] in *.
  destruct (Extensions.is_alive (Extensions.closing_state s)) eqn:Hal.
  - set (j := Extensions.join_wait _ turns _) in *.
    destruct (ExtFacts.join_wait_log
                (Extensions.now (Extensions.closing_state s) + 5) turns
                (Extensions.closing_state s)) as (rs & Hrs & Hnw & _).
    fold j in Hrs.
    pose proof (ExtFacts.join_wait_alive
                  (Extensions.now (Extensions.closing_state s) + 5) turns
                  (Extensions.closing_state s)) as Hwait.
    fold j in Hwait.
    destruct (Extensions.is_alive j) eqn:Hj.
    + eexists _, rs. split; [reflexivity|].
      change (Extensions.is_alive (Extensions.stop_log _)) with
        (Extensions.is_alive j).
      rewrite Hj. repeat split; try done; try lia.
      * intros _. cbn. rewrite Hwait by done. cbn. lia.
      * cbn. rewrite Hrs. cbn. by rewrite <- !app_assoc.
    + eexists _, rs. split; [reflexivity|].
      change (Extensions.is_alive (Extensions.stop_log _)) with
        (Extensions.is_alive j).
      rewrite Hj. repeat split; try done; try lia.
      cbn. rewrite Hrs. cbn. by rewrite <- !app_assoc.
  - eexists _, []. split; [reflexivity|].
    change (Extensions.is_alive (Extensions.stop_log _)) with
      (Extensions.is_alive (Extensions.closing_state s)).
    rewrite Hal. repeat split; try done; try lia.
    cbn. by rewrite <- !app_assoc.
Qed.

(** ** The simulated connection *)

(** C2, amended. On an instance that is opened for the first time,
    [open()] always leads to [is_connected()] being true, with no exchange
    with a device.  In the threaded connector, for an instance whose
    thread has not been started, [open()] returns normally, the
    first turn of the worker ends in a sleep of one second, and in every
    run that follows, whatever calls and delays it is made of, either
    [is_connected()] is true at some point of the run or it is true as
    soon as the worker has had a turn, one second and another turn.  In
    the plain connector [open()] sets the flag at once, in every state. *)
Theorem open_eventually_connects K s sch (s0 : Connectors.iecConnector) :
  Extensions.thread s = Extensions.Initial →
  let opened := after Extensions.open s in
  fst (Extensions.open s) = Ok tt
  ∧ Extensions.thread (Extensions.worker_step opened)
    = Extensions.Alive (Extensions.connect_sleep (Extensions.now s + 1))
  ∧ ((∃ pre, pre `prefix_of` sch
             ∧ Extensions.is_connected (Extensions.exec K pre opened) = true)
     ∨ Extensions.is_connected
         (Extensions.worker_step
            (Extensions.tick 1
               (Extensions.worker_step (Extensions.exec K sch opened))))
       = true)
  ∧ fst (Connectors.open s0) = Ok tt
  ∧ Connectors.is_connected (after Connectors.open s0) = true.
Proof.
  intros Hinit. cbv zeta. unfold after.
  rewrite ExtFacts.open_eq, Hinit. cbn [fst snd].
  set (opened := Extensions.emit _ _).
  assert (Hth : Extensions.thread opened = Extensions.Alive Extensions.at_entry)
    by done.
  split; [done|]. split; [by rewrite ExtFacts.worker_step_entry|].
  split; [|done].
  destruct (ExtFacts.exec_connecting K sch opened) as [Hever|Hend];
    [by left|by left|right].
  by apply ExtFacts.connecting_connects.
Qed.

Lemma open_eventually_connects_witness :
  let s := Extensions.__init__ (mkGateway []) ∅ "iec" in
  let sch := [Extensions.EvRpc sample_request; Extensions.EvWorker;
              Extensions.EvTick 1; Extensions.EvAttributes ∅] in
  let opened := after Extensions.open s in
  fst (Extensions.open s) = Ok tt
  ∧ Extensions.thread (Extensions.worker_step opened)
    = Extensions.Alive (Extensions.connect_sleep (Extensions.now s + 1))
  ∧ ((∃ pre, pre `prefix_of` sch
             ∧ Extensions.is_connected
                 (Extensions.exec tb_constants pre opened) = true)
     ∨ Extensions.is_connected
         (Extensions.worker_step
            (Extensions.tick 1
               (Extensions.worker_step
                  (Extensions.exec tb_constants sch opened))))
       = true)
  ∧ fst (Connectors.open (Connectors.__init__ (mkGateway []) ∅ "iec"))
    = Ok tt
  ∧ Connectors.is_connected
      (after Connectors.open (Connectors.__init__ (mkGateway []) ∅ "iec"))
    = true.
Proof.
  cbv zeta.
  apply (open_eventually_connects tb_constants
           (Extensions.__init__ (mkGateway []) ∅ "iec")).
  reflexivity.
Defined.

(** ** Closing twice *)

(** Where the second [close()] changes nothing: in the plain connector,
    and in the threaded connector when the worker is past its simulated
    connection (or was never started) at the first [close()]. *)
Lemma close_twice_past_connection turns turns' s (s0 : Connectors.iecConnector) :
  Extensions.past_connection s = true →
  let s1 := after (Extensions.close turns) s in
  let s2 := after (Extensions.close turns') s1 in
  fst (Extensions.close turns s) = Ok tt
  ∧ fst (Extensions.close turns' s1) = Ok tt
  ∧ Extensions.is_connected s1 = false
  ∧ Extensions.is_stopped s1 = true
  ∧ Extensions.is_connected s2 = false
  ∧ Extensions.is_stopped s2 = true
  ∧ Connectors.is_connected (after Connectors.close s0) = false
  ∧ Connectors.is_connected
      (after Connectors.close (after Connectors.close s0)) = false.
Proof.
  intros Hpast. cbv zeta.
  destruct (ExtFacts.close_past turns s Hpast) as (Hc1 & Hs1 & Hp1).
  destruct (ExtFacts.close_past turns' _ Hp1) as (Hc2 & Hs2 & _).
  rewrite !ExtFacts.close_eq. done.
Qed.

(** C3, on the run that breaks it.  A connector is opened and closed
    before the simulated connection delay is over; the worker ends within
    the wait of [close()] and marks the connector as connected on its way
    out.  Both calls of [close()] return normally and leave the stop flag
    set, but [is_connected()] is true after the first and false after the
    second. *)
Theorem close_twice_after_early_close :
  let s0 := Extensions.__init__ (mkGateway []) ∅ "iec" in
  let s1 := after Extensions.open s0 in
  let s2 := after (Extensions.close 2) s1 in
  let s3 := after (Extensions.close 2) s2 in
  fst (Extensions.close 2 s1) = Ok tt
  ∧ fst (Extensions.close 2 s2) = Ok tt
  ∧ Extensions.now s2 = 1
  ∧ Extensions.is_alive s2 = false
  ∧ Extensions.is_stopped s2 = true
  ∧ Extensions.is_connected s2 = true
  ∧ Extensions.is_stopped s3 = true
  ∧ Extensions.is_connected s3 = false.
Proof. vm_compute. repeat split. Qed.

(** ** The frame codec *)

Module CodecFacts.
Import FrameCodec.

Lemma seq_low_even n : Z.land (seq_low n) 1 = 0.
Proof.
  unfold seq_low. rewrite <- Z.land_assoc. change (Z.land 255 1) with (Z.ones 1).
  rewrite Z.land_ones by lia. rewrite Z.shiftl_mul_pow2 by lia.
  change (2 ^ 1) with 2. apply Z.mod_mul. lia.
Qed.

Lemma seq_of_low_high n : valid_seq n → seq_of (seq_low n) (seq_high n) = n.
Proof.
  intros [Hlo Hhi]. unfold seq_of, seq_low, seq_high.
  change 255 with (Z.ones 8).
  rewrite !Z.land_ones by lia.
  rewrite !Z.shiftr_div_pow2, !Z.shiftl_mul_pow2 by lia.
  rewrite <- Z.lxor_lor, <- Z.add_nocarry_lxor.
  - change (2 ^ 8) with 256. change (2 ^ 7) with 128. change (2 ^ 1) with 2.
    rewrite (Z.mod_small (n / 128))
      by (split; [apply Z.div_pos; lia | apply Z.div_lt_upper_bound; lia]).
    Z.div_mod_to_equations. lia.
  - apply Z.bits_inj'. intros k Hk. rewrite Z.land_spec, Z.bits_0.
    destruct (Z.lt_ge_cases k 7).
    + rewrite (Z.mul_pow2_bits_low _ 7 k) by lia. apply andb_false_r.
    + rewrite <- Z.shiftr_div_pow2, Z.shiftr_spec by lia.
      rewrite Z.mod_pow2_bits_high; [done|lia].
  - apply Z.bits_inj'. intros k Hk. rewrite Z.land_spec, Z.bits_0.
    destruct (Z.lt_ge_cases k 7).
    + rewrite (Z.mul_pow2_bits_low _ 7 k) by lia. apply andb_false_r.
    + rewrite <- Z.shiftr_div_pow2, Z.shiftr_spec by lia.
      rewrite Z.mod_pow2_bits_high; [done|lia].
Qed.

End CodecFacts.

(** C6. For every structurally valid APDU, decoding its encoding gives the
    APDU back. *)
Theorem decode_encode_roundtrip apdu :
  FrameCodec.valid_apdu apdu →
  FrameCodec.decode (FrameCodec.encode apdu) = FrameCodec.Frame apdu.
Proof.
  destruct apdu as [ssn rsn asdu|rsn|f];
    cbn [FrameCodec.valid_apdu FrameCodec.encode FrameCodec.decode].
  - intros (Hs & Hr & Hlen & _).
    unfold FrameCodec.START_BYTE, FrameCodec.MAX_LENGTH,
      FrameCodec.CONTROL_LENGTH in *.
    rewrite Z.eqb_refl. cbn [negb].
    destruct (Z.ltb_spec 253 (4 + Z.of_nat (length asdu))); [lia|].
    destruct (Z.ltb_spec (4 + Z.of_nat (length asdu)) 4); [lia|].
    cbn [orb length].
    destruct (Z.ltb_spec (Z.of_nat (S (S (S (S (length asdu))))))
                (4 + Z.of_nat (length asdu))); [lia|].
    unfold FrameCodec.decode_control, FrameCodec.CONTROL_LENGTH.
    rewrite !CodecFacts.seq_low_even, !CodecFacts.seq_of_low_high by done.
    cbn [Z.eqb].
    replace (Z.to_nat (4 + Z.of_nat (length asdu) - 4)) with (length asdu)
      by lia.
    by rewrite firstn_all.
  - intros Hr.
    unfold FrameCodec.decode_control, FrameCodec.START_BYTE,
      FrameCodec.MAX_LENGTH, FrameCodec.CONTROL_LENGTH.
    cbn -[FrameCodec.seq_low FrameCodec.seq_high FrameCodec.seq_of Z.land].
    rewrite CodecFacts.seq_low_even.
    cbn -[FrameCodec.seq_low FrameCodec.seq_high FrameCodec.seq_of].
    by rewrite CodecFacts.seq_of_low_high.
  - intros _. by destruct f.
Qed.

Lemma decode_encode_roundtrip_witness :
  FrameCodec.decode
    (FrameCodec.encode (FrameCodec.IFormat 300 32767 [45; 1; 6; 0; 255]))
  = FrameCodec.Frame (FrameCodec.IFormat 300 32767 [45; 1; 6; 0; 255]).
Proof.
  apply decode_encode_roundtrip. cbn.
  unfold FrameCodec.valid_seq, FrameCodec.octet, FrameCodec.MAX_LENGTH,
    FrameCodec.CONTROL_LENGTH.
  repeat split; try lia. repeat constructor; lia.
Defined.

(** ** The command dispatcher *)

Module DispatcherFacts.
Import CommandDispatcher.

Lemma outstanding_for_true point d :
  outstanding_for point d = true
  ↔ ∃ seq e, in_flight d !! seq = Some e ∧ pointAddress (request e) = point.
Proof.
  unfold outstanding_for. rewrite existsb_exists. split.
  - intros ([seq e] & Hin & Heq). exists seq, e.
    apply list_elem_of_In, elem_of_map_to_list in Hin. split; [done|].
    cbn in Heq. lia.
  - intros (seq & e & Hin & Heq). exists (seq, e). split.
    + by apply list_elem_of_In, elem_of_map_to_list.
    + cbn. lia.
Qed.

Lemma alter_request (f : InFlight → InFlight) seq (m : gmap N InFlight) k e :
  (∀ a, request (f a) = request a) →
  alter f seq m !! k = Some e →
  ∃ a, m !! k = Some a ∧ request a = request e.
Proof.
  intros Hf. destruct (decide (seq = k)) as [->|Hne].
  - rewrite lookup_alter_eq. destruct (m !! k) as [a|]; [|done].
    intros [= <-]. eauto.
  - rewrite lookup_alter_ne by done. eauto.
Qed.

Lemma fmap_request (f : InFlight → InFlight) (m : gmap N InFlight) k e :
  (∀ a, request (f a) = request a) →
  (f <$> m) !! k = Some e →
  ∃ a, m !! k = Some a ∧ request a = request e.
Proof.
  intros Hf. rewrite lookup_fmap. destruct (m !! k) as [a|]; [|done].
  intros [= <-]. eauto.
Qed.

(** A dispatcher whose commands are those of [d], possibly fewer and in
    other states, keeps the invariant of [d]. *)
Lemma invariant_mono d d' :
  (∀ k e, in_flight d' !! k = Some e →
          ∃ a, in_flight d !! k = Some a ∧ request a = request e) →
  next_activation d' = next_activation d →
  one_per_point d ∧ fresh d → one_per_point d' ∧ fresh d'.
Proof.
  intros Hsub Hnext [Hone Hfresh]. split.
  - intros seq1 seq2 e1 e2 H1 H2 Hp.
    apply Hsub in H1 as (a1 & H1 & Hr1), H2 as (a2 & H2 & Hr2).
    apply (Hone seq1 seq2 a1 a2); [done..|]. by rewrite Hr1, Hr2.
  - intros k e Hin. apply Hsub in Hin as (a & Hin & _).
    rewrite Hnext. by eapply Hfresh.
Qed.

Lemma step_invariant ev d :
  one_per_point d ∧ fresh d → one_per_point (step ev d) ∧ fresh (step ev d).
Proof.
  intros Hinv.
  destruct ev as [req|seq|common point positive|common point|seq];
    cbn [step].
  - destruct Hinv as [Hone Hfresh]. unfold submit.
    destruct (outstanding_for (pointAddress req) d) eqn:Hout; [done|].
    assert (Hno : ∀ seq e, in_flight d !! seq = Some e →
                           pointAddress (request e) ≠ pointAddress req).
    { intros seq e Hin Heq.
      assert (outstanding_for (pointAddress req) d = true)
        by (apply outstanding_for_true; eauto).
      congruence. }
    cbn. split.
    + intros seq1 seq2 e1 e2 H1 H2 Hp. cbn in *.
      destruct (decide (next_activation d = seq1)) as [<-|Hn1],
               (decide (next_activation d = seq2)) as [<-|Hn2]; [done| | |].
      * rewrite lookup_insert_eq in H1.
        rewrite lookup_insert_ne in H2 by done.
        simplify_eq/=. exfalso. by eapply Hno.
      * rewrite lookup_insert_eq in H2.
        rewrite lookup_insert_ne in H1 by done.
        simplify_eq/=. exfalso. by eapply Hno.
      * rewrite lookup_insert_ne in H1, H2 by done. by eapply Hone.
    + intros seq e Hin. cbn in *.
      destruct (decide (next_activation d = seq)) as [<-|Hn]; [lia|].
      rewrite lookup_insert_ne in Hin by done. apply Hfresh in Hin. lia.
  - apply (invariant_mono d); [|done..].
    intros k e. apply alter_request. intros a. by destruct (is_state _ _).
  - unfold on_confirmation, resolve. destruct positive; cbn [fst].
    + apply (invariant_mono d); [|done..].
      intros k e. apply fmap_request. intros a. by destruct (awaits _ _ _ _ _).
    + apply (invariant_mono d); [|done..].
      intros k e Hin. cbn in Hin.
      apply map_lookup_filter_Some in Hin as [Hin _]. eauto.
  - unfold on_termination, resolve. cbn [fst].
    apply (invariant_mono d); [|done..].
    intros k e Hin. cbn in Hin.
    apply map_lookup_filter_Some in Hin as [Hin _]. eauto.
  - unfold on_timeout. destruct (in_flight d !! seq) as [e|] eqn:He; [|done].
    destruct (is_state Sent e || is_state Confirmed e); [|done]. cbn [fst].
    apply (invariant_mono d); [|done..].
    intros k a Hin. cbn in Hin. apply lookup_delete_Some in Hin as [_ Hin]. eauto.
Qed.

Lemma run_invariant evs d :
  one_per_point d ∧ fresh d → one_per_point (run evs d) ∧ fresh (run evs d).
Proof.
  revert d. induction evs as [|ev evs IH]; intros d Hinv; [done|].
  cbn [run]. by apply IH, step_invariant.
Qed.

Lemma empty_invariant common :
  one_per_point (empty common) ∧ fresh (empty common).
Proof. split; intros ?; intros; cbn in *; by simplify_map_eq. Qed.

End DispatcherFacts.

(** C7. In every state that the dispatcher reaches, at most one request
    per point address is in flight, and a request for a point address that
    has one in flight fails at once with [Busy] and leaves the dispatcher,
    and so the request in flight, as it was. *)
Theorem second_command_is_busy evs common req seq first :
  let d := CommandDispatcher.run evs (CommandDispatcher.empty common) in
  CommandDispatcher.in_flight d !! seq = Some first →
  CommandDispatcher.pointAddress (CommandDispatcher.request first)
  = CommandDispatcher.pointAddress req →
  CommandDispatcher.submit req d = (inl CommandDispatcher.Busy, d)
  ∧ CommandDispatcher.in_flight d !! seq = Some first
  ∧ CommandDispatcher.one_per_point d.
Proof.
  intros d Hin Hpoint. split; [|split; [done|]].
  - unfold CommandDispatcher.submit.
    assert (CommandDispatcher.outstanding_for
              (CommandDispatcher.pointAddress req) d = true) as ->; [|done].
    apply DispatcherFacts.outstanding_for_true. eauto.
  - apply DispatcherFacts.run_invariant, DispatcherFacts.empty_invariant.
Qed.

Lemma second_command_is_busy_witness :
  let d :=
    CommandDispatcher.run
      [CommandDispatcher.Submit CommandDispatcher.sample_command;
       CommandDispatcher.MarkSent 0]
      (CommandDispatcher.empty 1) in
  CommandDispatcher.submit CommandDispatcher.sample_command d
  = (inl CommandDispatcher.Busy, d)
  ∧ CommandDispatcher.in_flight d !! 0%N
    = Some (CommandDispatcher.mkInFlight CommandDispatcher.sample_command
              CommandDispatcher.Sent)
  ∧ CommandDispatcher.one_per_point d.
Proof.
  cbv zeta.
  apply (second_command_is_busy
           [CommandDispatcher.Submit CommandDispatcher.sample_command;
            CommandDispatcher.MarkSent 0]
           1 CommandDispatcher.sample_command 0%N
           (CommandDispatcher.mkInFlight CommandDispatcher.sample_command
              CommandDispatcher.Sent)).
  - vm_compute. reflexivity.
  - reflexivity.
Defined.

(* ================================================================== *)
(** * Further properties of the connectors *)

Module RunFacts.
Import Extensions.

(** The replies sent by one event. *)
Lemma step_replies K ev s :
  rpc_replies (__gateway (step K ev s))
  = (rpc_replies (__gateway s) ++ replies_of K ev)%list.
Proof.
  destruct ev as [|turns|content|content| |d]; cbn [step replies_of];
    rewrite ?app_nil_r.
  - unfold after. rewrite ExtFacts.open_eq. by destruct (thread s).
  - by destruct (ExtFacts.close_frame turns s) as (-> & _).
  - unfold after. rewrite ExtFacts.server_side_rpc_handler_eq. cbv zeta.
    unfold has_truthy_id, dict_get, dict_get_default.
    destruct (content !! "id") as [v|]; cbn;
      [destruct (truthy v); cbn|]; by rewrite ?app_nil_r.
  - done.
  - by destruct (ExtFacts.worker_step_frame s) as (-> & _).
  - done.
Qed.

(** The stop flag after one event. *)
Lemma step_stop_flag K ev s :
  _stopped (step K ev s) = stop_flag_after [ev] (_stopped s).
Proof.
  destruct ev as [|turns|content|content| |d]; cbn [step stop_flag_after].
  - apply ExtFacts.open_clears_stop_flag.
  - by destruct (ExtFacts.close_frame turns s) as (_ & _ & _ & -> & _).
  - unfold after. rewrite ExtFacts.server_side_rpc_handler_eq. cbv zeta.
    by destruct (truthy _).
  - done.
  - by destruct (ExtFacts.worker_step_frame s) as (_ & _ & _ & -> & _).
  - done.
Qed.

(** No event but [close()] clears the connection flag. *)
Lemma step_keeps_connected K ev s :
  is_close ev = false → _connected s = true →
  _connected (step K ev s) = true.
Proof.
  intros Hev Hconn. destruct ev as [|turns|content|content| |d]; cbn [step].
  - unfold after. rewrite ExtFacts.open_eq. by destruct (thread s).
  - done.
  - unfold after. rewrite ExtFacts.server_side_rpc_handler_eq. cbv zeta.
    by destruct (truthy _).
  - done.
  - by apply ExtFacts.worker_step_frame.
  - done.
Qed.

(** No event revives a worker that has ended, or marks its connector as
    connected. *)
Lemma step_finished K ev s exc :
  thread s = Finished exc →
  thread (step K ev s) = Finished exc
  ∧ (_connected s = false → _connected (step K ev s) = false).
Proof.
  intros Ht. destruct ev as [|turns|content|content| |d]; cbn [step].
  - unfold after. rewrite ExtFacts.open_eq, Ht. done.
  - unfold after. rewrite ExtFacts.close_eq. cbv zeta. cbn [snd].
    unfold is_alive. cbn. rewrite Ht. done.
  - unfold after. rewrite ExtFacts.server_side_rpc_handler_eq. cbv zeta.
    by destruct (truthy _).
  - done.
  - unfold worker_step. rewrite Ht. done.
  - done.
Qed.

(** Every event appends to the log, and none restarts a stopped logger;
    [close()] stops it. *)
Lemma step_log K ev s :
  ∃ rs, records (log (step K ev s)) = (records (log s) ++ rs)%list
        ∧ (logger_stopped (log s) = true ∨ is_close ev = true →
           logger_stopped (log (step K ev s)) = true).
Proof.
  destruct ev as [|turns|content|content| |d]; cbn [step is_close].
  - unfold after. rewrite ExtFacts.open_eq.
    destruct (thread s); cbn; rewrite <- ?app_assoc;
      (eexists; split; [reflexivity|]); by intros [?|?].
  - unfold after. rewrite ExtFacts.close_eq. cbv zeta. cbn [snd].
    destruct (ExtFacts.join_wait_log (now (closing_state s) + 5) turns
                (closing_state s)) as (rs & Hrs & _).
    assert (Hcl : records (log (closing_state s))
                  = (records (log s)
                     ++ [mkLogRecord INFO
                           "Closing IEC connector and stopping its thread."
                           []])%list) by done.
    destruct (is_alive (closing_state s));
      [destruct (is_alive (join_wait _ _ _))|];
      cbn [stop_log emit set_log log logger_stop logger_emit records
           logger_stopped];
      rewrite ?Hrs, Hcl, <- ?app_assoc;
      (eexists; split; [reflexivity|done]).
  - unfold after. rewrite ExtFacts.server_side_rpc_handler_eq. cbv zeta.
    destruct (truthy _); cbn; rewrite <- ?app_assoc;
      (eexists; split; [reflexivity|]); by intros [?|?].
  - cbn. rewrite <- ?app_assoc.
    eexists; split; [reflexivity|]. by intros [?|?].
  - destruct (ExtFacts.worker_step_log s) as (rs & -> & _ & ->).
    eexists; split; [reflexivity|]. by intros [?|?].
  - exists []. rewrite app_nil_r. split; [done|]. by intros [?|?].
Qed.

(** Along a run, a connector that is not connected and whose worker has
    ended stays not connected. *)
Lemma exec_finished_disconnected K sch s exc :
  thread s = Finished exc → _connected s = false →
  _connected (exec K sch s) = false.
Proof.
  revert s. induction sch as [|ev sch IH]; intros s Ht Hconn; [done|].
  cbn [exec]. destruct (step_finished K ev s exc Ht) as [Ht' Hstep].
  apply IH; [done|]. by apply Hstep.
Qed.

(** *** The loop of the worker *)

(** The record that opens an iteration of the loop. *)
Lemma loop_record_counts name connected :
  is_loop_record
    (mkLogRecord DEBUG "IEC connector '%s' is running. Connected: %s"
       [PStr name; PBool connected]) = true.
Proof. reflexivity. Qed.


(** The first iteration with a value that [time.sleep] refuses. *)
Lemma worker_step_bad_interval s until v e :
  thread s = Alive (connect_sleep until) → until ≤ now s →
  _stopped s = false →
  _config s !! "pollingInterval" = Some v → sleep_error v = Some e →
  worker_step s
  = set_thread (Finished (Some e))
      (emit (mkLogRecord DEBUG
               "IEC connector '%s' is running. Connected: %s"
               [PStr (_connector_name s); PBool true])
         (connected_state s)).
Proof.
  intros Ht Hdue Hst Hcfg Herr. unfold worker_step. rewrite Ht.
  cbn [wake_time run]. rewrite ExtFacts.sleep_over.
  destruct (Z.leb_spec until (now s)); [|lia].
  rewrite ExtFacts.run_connected_eq.
  unfold run_loop, bind, gets.
  change (_stopped (connected_state s)) with (_stopped s). rewrite Hst.
  cbn -[dict_get_default]. unfold dict_get_default. rewrite Hcfg.
  change (default (PInt 5) (Some v)) with v.
  unfold time_sleep, sleep_error in *.
  destruct v as [|b|z| | |]; try discriminate Herr;
    try (injection Herr as <-; reflexivity).
  destruct ((z <? - SLEEP_MAX) || (SLEEP_MAX <? z));
    [injection Herr as <-; reflexivity|].
  destruct (z <? 0); [|discriminate Herr].
  injection Herr as <-. reflexivity.
Qed.

(** *** [close()] and a worker in its polling sleep *)

Lemma join_wait_poll_ends turns s until :
  thread s = Alive (poll_sleep until) → _stopped s = true →
  until ≤ now s + 5 → turns ≠ O →
  join_wait (now s + 5) turns s
  = set_thread (Finished None)
      (emit (mkLogRecord INFO
               "IEC connector thread '%s' main loop finished."
               [PStr (_connector_name s)])
         (advance_to until s)).
Proof.
  intros Ht Hst Hu Hturns. destruct turns as [|turns]; [done|].
  cbn [join_wait]. rewrite Ht. cbn [wake_time].
  destruct (Z.leb_spec (Z.max until (now s)) (now s + 5)); [|lia].
  assert (Hadv : advance_to (Z.max until (now s)) s = advance_to until s).
  { unfold advance_to. f_equal. lia. }
  rewrite Hadv.
  assert (Hstep : worker_step (advance_to until s)
    = set_thread (Finished None)
        (emit (mkLogRecord INFO
                 "IEC connector thread '%s' main loop finished."
                 [PStr (_connector_name s)])
           (advance_to until s))).
  { unfold worker_step.
    change (thread (advance_to until s)) with (thread s). rewrite Ht.
    cbn [wake_time run]. rewrite ExtFacts.sleep_over.
    destruct (Z.leb_spec until (now (advance_to until s))); [|cbn in *; lia].
    by rewrite ExtFacts.run_loop_stopped. }
  rewrite Hstep. by destruct turns.
Qed.

Lemma join_wait_poll_times_out turns s until :
  thread s = Alive (poll_sleep until) → now s + 5 < until →
  join_wait (now s + 5) turns s = advance_to (now s + 5) s.
Proof.
  intros Ht Hu. destruct turns as [|turns]; cbn [join_wait]; rewrite Ht;
    [done|].
  cbn [wake_time].
  destruct (Z.leb_spec (Z.max until (now s)) (now s + 5)); [lia|done].
Qed.

End RunFacts.

(** ** Opening a second time *)

(** X1. On an instance whose thread was started before, whether it is
    still running or has ended, [open()] raises the [RuntimeError] of
    [Thread.start()]; by then it has logged its first record and cleared
    the stop flag, and it leaves the thread and the connection flag as they
    were. *)
Theorem second_open_raises s :
  Extensions.thread s ≠ Extensions.Initial →
  fst (Extensions.open s)
  = Raise (RuntimeError "threads can only be started once")
  ∧ Extensions.is_stopped (after Extensions.open s) = false
  ∧ Extensions.thread (after Extensions.open s) = Extensions.thread s
  ∧ Extensions.is_connected (after Extensions.open s)
    = Extensions.is_connected s
  ∧ records (Extensions.log (after Extensions.open s))
    = (records (Extensions.log s)
       ++ [mkLogRecord INFO
             "Opening IEC connector and starting its thread." []])%list.
Proof.
  intros Hstarted. unfold after. rewrite ExtFacts.open_eq.
  destruct (Extensions.thread s) eqn:Ht; [done| |];
    repeat split; cbn; by rewrite ?Ht.
Qed.

Lemma second_open_raises_witness :
  let s := after (Extensions.close 2)
             (after Extensions.open
                (Extensions.__init__ (mkGateway []) ∅ "iec")) in
  fst (Extensions.open s)
  = Raise (RuntimeError "threads can only be started once")
  ∧ Extensions.is_stopped (after Extensions.open s) = false
  ∧ Extensions.thread (after Extensions.open s) = Extensions.thread s
  ∧ Extensions.is_connected (after Extensions.open s)
    = Extensions.is_connected s
  ∧ records (Extensions.log (after Extensions.open s))
    = (records (Extensions.log s)
       ++ [mkLogRecord INFO
             "Opening IEC connector and starting its thread." []])%list.
Proof.
  cbv zeta. apply second_open_raises. vm_compute. discriminate.
Defined.

(** ** Flags along a run *)

(** X2. After any run, [is_stopped()] is what the last call of [open()] or
    [close()] in the run made it, also when that [open()] raised; requests,
    attribute updates, turns of the worker and delays do not change it. *)
Theorem stop_flag_follows_last_call K sch s :
  Extensions.is_stopped (Extensions.exec K sch s)
  = stop_flag_after sch (Extensions.is_stopped s).
Proof.
  revert s. induction sch as [|ev sch IH]; intros s; [done|].
  cbn [Extensions.exec]. rewrite IH.
  unfold Extensions.is_stopped. rewrite RunFacts.step_stop_flag.
  by destruct ev.
Qed.

(** X3. Nothing but [close()] marks the connector as disconnected: along a
    run without a call of [close()], a connector that is connected stays
    connected, whatever the worker, the requests and a failing [open()]
    do. *)
Theorem only_close_disconnects K sch s :
  forallb (λ ev, negb (is_close ev)) sch = true →
  Extensions.is_connected s = true →
  Extensions.is_connected (Extensions.exec K sch s) = true.
Proof.
  revert s. induction sch as [|ev sch IH]; intros s Hsch Hconn; [done|].
  cbn [forallb] in Hsch. apply andb_prop in Hsch as [Hev Hsch].
  cbn [Extensions.exec]. apply IH; [done|].
  apply RunFacts.step_keeps_connected; [|done].
  by destruct (is_close ev).
Qed.

Lemma only_close_disconnects_witness :
  let s :=
    Extensions.exec tb_constants
      [Extensions.EvOpen; Extensions.EvWorker; Extensions.EvTick 1;
       Extensions.EvWorker]
      (Extensions.__init__ (mkGateway []) ∅ "iec") in
  Extensions.is_connected
    (Extensions.exec tb_constants
       [Extensions.EvOpen; Extensions.EvTick 5; Extensions.EvWorker;
        Extensions.EvRpc sample_request; Extensions.EvAttributes ∅] s)
  = true.
Proof.
  cbv zeta. apply only_close_disconnects; vm_compute; reflexivity.
Defined.

(** X4. A worker that has ended is never started again: along any run its
    thread stays ended, [is_alive()] stays false, and a connector that is
    not connected then is never marked as connected again. *)
Theorem ended_worker_stays_ended K sch s exc :
  Extensions.thread s = Extensions.Finished exc →
  Extensions.thread (Extensions.exec K sch s) = Extensions.Finished exc
  ∧ Extensions.is_alive (Extensions.exec K sch s) = false
  ∧ (Extensions.is_connected s = false →
     Extensions.is_connected (Extensions.exec K sch s) = false).
Proof.
  revert s. induction sch as [|ev sch IH]; intros s Ht.
  - cbn. unfold Extensions.is_alive. by rewrite Ht.
  - cbn [Extensions.exec].
    destruct (RunFacts.step_finished K ev s exc Ht) as [Ht' Hconn].
    destruct (IH _ Ht') as (Hth & Hal & Hc).
    repeat split; [done..|]. intros Hs. by apply Hc, Hconn.
Qed.

Lemma ended_worker_stays_ended_witness :
  let s := after (Extensions.close 2)
             (after (Extensions.close 2)
                (after Extensions.open
                   (Extensions.__init__ (mkGateway []) ∅ "iec"))) in
  let sch := [Extensions.EvOpen; Extensions.EvTick 2; Extensions.EvWorker;
              Extensions.EvRpc sample_request] in
  Extensions.thread (Extensions.exec tb_constants sch s)
  = Extensions.Finished None
  ∧ Extensions.is_alive (Extensions.exec tb_constants sch s) = false
  ∧ (Extensions.is_connected s = false →
     Extensions.is_connected (Extensions.exec tb_constants sch s) = false).
Proof.
  cbv zeta. apply ended_worker_stays_ended. vm_compute. reflexivity.
Defined.

(** ** The gateway and the logger along a run *)

(** X5. Along any run the connector calls [send_rpc_reply] once for each
    request that has a truthy ['id'], in the order of the requests and with
    the payload returned to the caller, and at no other time: opening,
    closing, attribute updates and the worker send nothing to the
    gateway. *)
Theorem replies_of_a_run K sch s :
  rpc_replies (Extensions.__gateway (Extensions.exec K sch s))
  = (rpc_replies (Extensions.__gateway s)
     ++ flat_map (replies_of K) sch)%list.
Proof.
  revert s. induction sch as [|ev sch IH]; intros s.
  - cbn. by rewrite app_nil_r.
  - cbn [Extensions.exec flat_map].
    by rewrite IH, RunFacts.step_replies, <- app_assoc.
Qed.

(** X6. [close()] stops the logger and nothing starts it again: in every
    run that follows a [close()], whatever it is made of, the logger stays
    stopped while records are still appended to it and none is removed. *)
Theorem logger_stays_stopped K turns sch s :
  logger_stopped
    (Extensions.log (Extensions.exec K (Extensions.EvClose turns :: sch) s))
  = true
  ∧ ∃ rs,
      records
        (Extensions.log
           (Extensions.exec K (Extensions.EvClose turns :: sch) s))
      = (records (Extensions.log s) ++ rs)%list.
Proof.
  assert (Hrun : ∀ sch s,
    ∃ rs, records (Extensions.log (Extensions.exec K sch s))
          = (records (Extensions.log s) ++ rs)%list
          ∧ (logger_stopped (Extensions.log s) = true →
             logger_stopped (Extensions.log (Extensions.exec K sch s))
             = true)).
  { clear. intros sch. induction sch as [|ev sch IH]; intros s.
    - exists []. by rewrite app_nil_r.
    - cbn [Extensions.exec].
      destruct (RunFacts.step_log K ev s) as (rs1 & Hrs1 & Hst1).
      destruct (IH (Extensions.step K ev s)) as (rs2 & -> & Hst2).
      exists (rs1 ++ rs2)%list. rewrite Hrs1, <- app_assoc.
      split; [done|]. intros Hst. apply Hst2, Hst1. by left. }
  cbn [Extensions.exec].
  destruct (RunFacts.step_log K (Extensions.EvClose turns) s)
    as (rs1 & Hrs1 & Hst1).
  destruct (Hrun sch (Extensions.step K (Extensions.EvClose turns) s))
    as (rs2 & Hrs2 & Hst2).
  split.
  - apply Hst2, Hst1. by right.
  - exists (rs1 ++ rs2)%list. by rewrite Hrs2, Hrs1, <- app_assoc.
Qed.

(** ** The plain connector along a run *)

(** X7. In the plain connector, after any run, [is_connected()] is what
    the last call of [open()] or [close()] made it (so the connector can be
    opened again after a [close()]), every call has logged exactly one
    record, and the gateway and the configuration are as they were. *)
Theorem plain_connector_run sch s :
  Connectors.is_connected (Connectors.exec sch s)
  = plain_connected_after sch (Connectors.is_connected s)
  ∧ length (records (Connectors.__log (Connectors.exec sch s)))
    = (length (records (Connectors.__log s)) + length sch)%nat
  ∧ Connectors._gateway (Connectors.exec sch s) = Connectors._gateway s
  ∧ Connectors._config (Connectors.exec sch s) = Connectors._config s.
Proof.
  revert s. induction sch as [|ev sch IH]; intros s.
  - cbn. repeat split. lia.
  - cbn [Connectors.exec]. destruct (IH (Connectors.step ev s))
      as (-> & -> & -> & ->).
    destruct ev; cbn; rewrite length_app; cbn; repeat split; lia.
Qed.

(** ** The polling loop *)



(** X9. A [pollingInterval] that [time.sleep] refuses (an integer beyond
    [SLEEP_MAX] in either direction: [OverflowError]; another negative
    integer: [ValueError]; a value that is not a number: [TypeError]) ends
    the worker in its first iteration with that exception, after the
    connector was marked as connected: [is_connected()] is true while the
    thread is dead. *)
Theorem bad_polling_interval_kills_worker s until v e :
  Extensions.thread s = Extensions.Alive (Extensions.connect_sleep until) →
  until ≤ Extensions.now s →
  Extensions.is_stopped s = false →
  Extensions._config s !! "pollingInterval" = Some v →
  sleep_error v = Some e →
  Extensions.thread (Extensions.worker_step s)
  = Extensions.Finished (Some e)
  ∧ Extensions.is_alive (Extensions.worker_step s) = false
  ∧ Extensions.is_connected (Extensions.worker_step s) = true
  ∧ Extensions.loop_iterations (Extensions.worker_step s)
    = S (Extensions.loop_iterations s).
Proof.
  intros Ht Hdue Hst Hcfg Herr.
  rewrite (RunFacts.worker_step_bad_interval s until v e) by done.
  repeat split.
  rewrite ExtFacts.loop_iterations_set_thread, ExtFacts.loop_iterations_emit,
    RunFacts.loop_record_counts.
  unfold Extensions.connected_state.
  rewrite ExtFacts.loop_iterations_emit,
    ExtFacts.loop_iterations_set_connected.
  cbn. lia.
Qed.

Lemma bad_polling_interval_kills_worker_witness :
  let s :=
    Extensions.exec tb_constants
      [Extensions.EvOpen; Extensions.EvWorker; Extensions.EvTick 1]
      (Extensions.__init__ (mkGateway [])
         (<["pollingInterval" := PInt (-1)]> ∅) "iec") in
  Extensions.thread (Extensions.worker_step s)
  = Extensions.Finished (Some ValueError)
  ∧ Extensions.is_alive (Extensions.worker_step s) = false
  ∧ Extensions.is_connected (Extensions.worker_step s) = true
  ∧ Extensions.loop_iterations (Extensions.worker_step s)
    = S (Extensions.loop_iterations s).
Proof.
  cbv zeta.
  apply (bad_polling_interval_kills_worker _ 1 (PInt (-1)) ValueError).
  - vm_compute. reflexivity.
  - vm_compute. discriminate.
  - reflexivity.
  - vm_compute. reflexivity.
  - reflexivity.
Defined.



(** ** [close()] and the worker *)

(** X11. [close()] ends a worker that is in its polling sleep when that
    sleep is over within the five seconds of the wait and the worker gets
    a turn: [close()] returns as soon as the sleep is over, the thread has
    ended without an exception, the connector is stopped and not
    connected, and the log has the records of [close()] around the last
    record of [run()], with no warning. *)
Theorem close_ends_polling_worker turns s until :
  Extensions.thread s = Extensions.Alive (Extensions.poll_sleep until) →
  until ≤ Extensions.now s + 5 →
  turns ≠ O →
  let s' := after (Extensions.close turns) s in
  Extensions.thread s' = Extensions.Finished None
  ∧ Extensions.is_connected s' = false
  ∧ Extensions.is_stopped s' = true
  ∧ Extensions.now s' = Z.max (Extensions.now s) until
  ∧ records (Extensions.log s')
    = (records (Extensions.log s)
       ++ [mkLogRecord INFO
             "Closing IEC connector and stopping its thread." [];
           mkLogRecord INFO
             "IEC connector thread '%s' main loop finished."
             [PStr (Extensions._connector_name s)];
           mkLogRecord INFO
             "IEC connector thread stopped and resources cleaned." []])%list.
Proof.
  intros Ht Hu Hturns. cbv zeta. unfold after.
  rewrite ExtFacts.close_eq. cbv zeta. cbn [snd].
  assert (Hal : Extensions.is_alive (Extensions.closing_state s) = true)
    by (unfold Extensions.is_alive; cbn; by rewrite Ht).
  rewrite Hal.
  rewrite (RunFacts.join_wait_poll_ends turns (Extensions.closing_state s)
             until); [|done..].
  cbn. rewrite <- !app_assoc. done.
Qed.

Lemma close_ends_polling_worker_witness :
  let s :=
    Extensions.exec tb_constants
      [Extensions.EvOpen; Extensions.EvWorker; Extensions.EvTick 1;
       Extensions.EvWorker; Extensions.EvTick 2]
      (Extensions.__init__ (mkGateway []) ∅ "iec") in
  let s' := after (Extensions.close 1) s in
  Extensions.thread s' = Extensions.Finished None
  ∧ Extensions.is_connected s' = false
  ∧ Extensions.is_stopped s' = true
  ∧ Extensions.now s' = Z.max (Extensions.now s) 6
  ∧ records (Extensions.log s')
    = (records (Extensions.log s)
       ++ [mkLogRecord INFO
             "Closing IEC connector and stopping its thread." [];
           mkLogRecord INFO
             "IEC connector thread '%s' main loop finished."
             [PStr (Extensions._connector_name s)];
           mkLogRecord INFO
             "IEC connector thread stopped and resources cleaned." []])%list.
Proof.
  cbv zeta. apply (close_ends_polling_worker 1 _ 6).
  - vm_compute. reflexivity.
  - vm_compute. discriminate.
  - discriminate.
Defined.

(** X12. [close()] gives up on a worker whose polling sleep ends after the
    five seconds of the wait: it returns five seconds after the call with
    the thread still alive in the same sleep, the connector stopped and
    not connected, and the warning logged between its two records. *)
Theorem close_gives_up_on_long_sleep turns s until :
  Extensions.thread s = Extensions.Alive (Extensions.poll_sleep until) →
  Extensions.now s + 5 < until →
  let s' := after (Extensions.close turns) s in
  Extensions.thread s' = Extensions.Alive (Extensions.poll_sleep until)
  ∧ Extensions.is_connected s' = false
  ∧ Extensions.is_stopped s' = true
  ∧ Extensions.now s' = Extensions.now s + 5
  ∧ records (Extensions.log s')
    = (records (Extensions.log s)
       ++ [mkLogRecord INFO
             "Closing IEC connector and stopping its thread." [];
           mkLogRecord WARNING
             "IEC connector thread did not terminate gracefully within 5 seconds."
             [];
           mkLogRecord INFO
             "IEC connector thread stopped and resources cleaned." []])%list.
Proof.
  intros Ht Hu. cbv zeta. unfold after.
  rewrite ExtFacts.close_eq. cbv zeta. cbn [snd].
  assert (Hal : Extensions.is_alive (Extensions.closing_state s) = true)
    by (unfold Extensions.is_alive; cbn; by rewrite Ht).
  rewrite Hal.
  rewrite (RunFacts.join_wait_poll_times_out turns
             (Extensions.closing_state s) until); [|done..].
  assert (Hal' : Extensions.is_alive
            (Extensions.advance_to
               (Extensions.now (Extensions.closing_state s) + 5)
               (Extensions.closing_state s)) = true)
    by (unfold Extensions.is_alive; cbn; by rewrite Ht).
  rewrite Hal'. cbn. rewrite <- !app_assoc.
  repeat split; [done|lia].
Qed.

Lemma close_gives_up_on_long_sleep_witness :
  let s :=
    Extensions.exec tb_constants
      [Extensions.EvOpen; Extensions.EvWorker; Extensions.EvTick 1;
       Extensions.EvWorker; Extensions.EvTick 2]
      (Extensions.__init__ (mkGateway [])
         (<["pollingInterval" := PInt 60]> ∅) "iec") in
  let s' := after (Extensions.close 4) s in
  Extensions.thread s' = Extensions.Alive (Extensions.poll_sleep 61)
  ∧ Extensions.is_connected s' = false
  ∧ Extensions.is_stopped s' = true
  ∧ Extensions.now s' = Extensions.now s + 5
  ∧ records (Extensions.log s')
    = (records (Extensions.log s)
       ++ [mkLogRecord INFO
             "Closing IEC connector and stopping its thread." [];
           mkLogRecord WARNING
             "IEC connector thread did not terminate gracefully within 5 seconds."
             [];
           mkLogRecord INFO
             "IEC connector thread stopped and resources cleaned." []])%list.
Proof.
  cbv zeta. apply (close_gives_up_on_long_sleep 4 _ 61).
  - vm_compute. reflexivity.
  - vm_compute. reflexivity.
Defined.



(** X14. [close()] on a connector that was never opened returns at once
    without waiting or warning, and does not stand in the way of a later
    [open()]: that [open()] returns normally, starts the thread and clears
    the stop flag. *)
Theorem close_before_open turns s :
  Extensions.thread s = Extensions.Initial →
  let closed := after (Extensions.close turns) s in
  fst (Extensions.close turns s) = Ok tt
  ∧ Extensions.now closed = Extensions.now s
  ∧ Extensions.is_stopped closed = true
  ∧ Extensions.is_connected closed = false
  ∧ records (Extensions.log closed)
    = (records (Extensions.log s)
       ++ [mkLogRecord INFO
             "Closing IEC connector and stopping its thread." [];
           mkLogRecord INFO
             "IEC connector thread stopped and resources cleaned." []])%list
  ∧ fst (Extensions.open closed) = Ok tt
  ∧ Extensions.thread (after Extensions.open closed)
    = Extensions.Alive Extensions.at_entry
  ∧ Extensions.is_stopped (after Extensions.open closed) = false.
Proof.
  intros Ht. cbv zeta. unfold after.
  rewrite ExtFacts.close_eq. cbv zeta. cbn [fst snd].
  assert (Hal : Extensions.is_alive (Extensions.closing_state s) = false)
    by (unfold Extensions.is_alive; cbn; by rewrite Ht).
  rewrite Hal. rewrite ExtFacts.open_eq.
  cbn. rewrite Ht, <- !app_assoc. done.
Qed.

Lemma close_before_open_witness :
  let s := Extensions.__init__ (mkGateway []) ∅ "iec" in
  let closed := after (Extensions.close 3) s in
  fst (Extensions.close 3 s) = Ok tt
  ∧ Extensions.now closed = Extensions.now s
  ∧ Extensions.is_stopped closed = true
  ∧ Extensions.is_connected closed = false
  ∧ records (Extensions.log closed)
    = (records (Extensions.log s)
       ++ [mkLogRecord INFO
             "Closing IEC connector and stopping its thread." [];
           mkLogRecord INFO
             "IEC connector thread stopped and resources cleaned." []])%list
  ∧ fst (Extensions.open closed) = Ok tt
  ∧ Extensions.thread (after Extensions.open closed)
    = Extensions.Alive Extensions.at_entry
  ∧ Extensions.is_stopped (after Extensions.open closed) = false.
Proof.
  cbv zeta. apply (close_before_open 3). reflexivity.
Defined.

(** ** Opening an instance that was closed *)

(** C2, as stated, fails.  A connector is opened, its worker connects, and
    [close()] ends the worker.  On that instance [open()] raises the
    [RuntimeError] of [Thread.start()], and in no run that follows,
    whatever calls, turns of the worker and delays it is made of, does
    [is_connected()] become true. *)
Lemma reopened_connector_never_connects :
  let closed :=
    Extensions.exec tb_constants
      [Extensions.EvOpen; Extensions.EvWorker; Extensions.EvTick 1;
       Extensions.EvWorker; Extensions.EvClose 1]
      (Extensions.__init__ (mkGateway []) ∅ "iec") in
  Extensions.is_alive closed = false
  ∧ fst (Extensions.open closed)
    = Raise (RuntimeError "threads can only be started once")
  ∧ ∀ K sch,
      Extensions.is_connected
        (Extensions.exec K sch (after Extensions.open closed)) = false.
Proof.
  cbv zeta. split; [vm_compute; reflexivity|].
  split; [vm_compute; reflexivity|].
  intros K sch.
  apply (RunFacts.exec_finished_disconnected K sch _ None);
    vm_compute; reflexivity.
Qed.
